(** * Lazymote: the low-power Sony 12-bit infrared remote (remote.c)

    A shallow embedding of the firmware: the I/O registers it writes are a
    register file, every function of remote.c is a state transformer on
    the hardware state, and the two sleep primitives leave a trace of what
    the output line did while the processor slept.  The properties proved
    below are about that trace and about the registers on return. *)

From Stdlib Require Import ZArith List Bool Lia.
Import ListNotations.
Local Open Scope Z_scope.

(** ** Machine integers *)

Definition u8 (x : Z) : Z := x mod 256.
Definition u32 (x : Z) : Z := x mod 4294967296.

(** avr-libc's [_BV(bit)] is [(1 << (bit))]. *)
Definition _BV (b : Z) : Z := Z.shiftl 1 b.

(** ** Constants of remote.c *)

Definition PORTB_BUTTON_PIN_MASK : Z := 30.  (* 0b00011110 *)
Definition PORTB_OUTPUT_PIN_MASK : Z := 1.   (* 0b00000001 *)

Definition IR_CARRIER_FREQ : Z := 40000.
Definition HEADER_BIT_DURATION : Z := 2400.  (* microseconds *)
Definition ZERO_BIT_ON_DURATION : Z := 600.  (* microseconds *)
Definition ONE_BIT_ON_DURATION : Z := 1200.  (* microseconds *)
Definition BIT_OFF_DURATION : Z := 600.      (* microseconds *)
Definition POST_DELAY_DURATION : Z := 45.    (* milliseconds *)
Definition DEBOUNCE_DURATION : Z := 10.      (* milliseconds *)

(** Modelled from the spec: [F_CPU] comes from the build, not from
    remote.c; the spec and the comments of [idle_sleep_us] and
    [idle_sleep_ms] name a nominal clock of 1 MHz. *)
Definition F_CPU : Z := 1000000.

(** Bit positions of the ATtiny25/45/85 registers the firmware names
    (avr-libc's device header; remote.c only uses the names). *)
Definition COM0A0 : Z := 6.
Definition WGM01 : Z := 1.
Definition CS00 : Z := 0.
Definition CS10 : Z := 0.
Definition CS12 : Z := 2.
Definition CS13 : Z := 3.
Definition OCIE1A : Z := 6.
Definition PCIE : Z := 5.
Definition ACD : Z := 7.
Definition PRTIM1 : Z := 3.
Definition PRTIM0 : Z := 2.
Definition PRUSI : Z := 1.
Definition PRADC : Z := 0.
Definition SE : Z := 5.
Definition SM1 : Z := 4.
Definition SM0 : Z := 3.
Definition SLEEP_MODE_IDLE : Z := 0.
Definition SLEEP_MODE_PWR_DOWN : Z := _BV SM1.

(** ** The command table *)

Record command_def := mk_command {
  pinmask : Z;   (* uint8_t: a 1 bit denotes a pressed button *)
  code : Z       (* uint16_t: 12-bit code *)
}.

Definition command_defs : list command_def :=
  [ mk_command 2  (Z.lor 21 (Z.shiftl 1 7));   (* TV power *)
    mk_command 4  (Z.lor 18 (Z.shiftl 1 7));   (* TV volume up *)
    mk_command 8  (Z.lor 19 (Z.shiftl 1 7));   (* TV volume down *)
    mk_command 12 (Z.lor 20 (Z.shiftl 1 7));   (* TV mute (both volume buttons) *)
    mk_command 16 (Z.lor 37 (Z.shiftl 1 7)) ]. (* TV input select *)

(** ** Hardware state *)

Inductive reg :=
| TCCR0A | TCCR0B | OCR0A
| TCCR1 | OCR1A | TCNT1 | TIMSK
| GIMSK | PCMSK | ACSR
| DDRB | PORTB
| PRR | MCUCR.

Definition reg_eqb (a b : reg) : bool :=
  match a, b with
  | TCCR0A, TCCR0A | TCCR0B, TCCR0B | OCR0A, OCR0A
  | TCCR1, TCCR1 | OCR1A, OCR1A | TCNT1, TCNT1 | TIMSK, TIMSK
  | GIMSK, GIMSK | PCMSK, PCMSK | ACSR, ACSR
  | DDRB, DDRB | PORTB, PORTB
  | PRR, PRR | MCUCR, MCUCR => true
  | _, _ => false
  end.

(** A duration as a caller names it: the argument of [idle_sleep_us] or
    of [idle_sleep_ms]. *)
Inductive duration :=
| Micros (us : Z)
| Millis (ms : Z).

(** What can be observed of the device, one entry per sleep or sample.
    [Slept asked ticks prescaler carrier]: an idle sleep with Timer1's
    compare value [ticks] and clock select [prescaler], during which the
    gated carrier was on the output line or not. *)
Inductive event :=
| Slept (asked : duration) (ticks prescaler : Z) (carrier : bool)
| PoweredDown
| Sampled (v : Z).

Record hw := mk_hw {
  regs : reg -> Z;         (* the 8-bit I/O registers *)
  I_flag : bool;           (* global interrupt enable *)
  asked : duration;        (* ghost: argument of the sleep macro in progress *)
  pins : nat -> Z;         (* what PINB shows at each successive read *)
  reads : nat;             (* number of reads of PINB so far *)
  trace : list event       (* oldest first *)
}.

Definition rd (r : reg) (s : hw) : Z := regs s r.

(** Register writes keep the low 8 bits. *)
Definition wr (r : reg) (v : Z) (s : hw) : hw :=
  mk_hw (fun r' => if reg_eqb r r' then u8 v else regs s r')
        (I_flag s) (asked s) (pins s) (reads s) (trace s).

Definition set_I (b : bool) (s : hw) : hw :=
  mk_hw (regs s) b (asked s) (pins s) (reads s) (trace s).

Definition note (d : duration) (s : hw) : hw :=
  mk_hw (regs s) (I_flag s) d (pins s) (reads s) (trace s).

Definition emit (e : event) (s : hw) : hw :=
  mk_hw (regs s) (I_flag s) (asked s) (pins s) (reads s) (trace s ++ [e]).

(** [input = PINB]: the next sample of the input lines. *)
Definition read_PINB (s : hw) : Z * hw :=
  let v := u8 (pins s (reads s)) in
  (v, mk_hw (regs s) (I_flag s) (asked s) (pins s) (S (reads s))
            (trace s ++ [Sampled v])).

(** The carrier reaches the output line when Timer0 is clocked and
    powered, its compare output is connected (the gate the transmitter
    switches through TCCR0A) and PB0 is an output. *)
Definition carrier (s : hw) : bool :=
  Z.testbit (rd TCCR0A s) COM0A0
  && Z.testbit (rd DDRB s) 0
  && negb (Z.testbit (rd PRR s) PRTIM0)
  && negb (Z.land (rd TCCR0B s) 7 =? 0).

(** ** avr-libc operations used by remote.c *)

Definition set_sleep_mode (mode : Z) (s : hw) : hw :=
  wr MCUCR (Z.lor (Z.land (rd MCUCR s) (Z.lnot (Z.lor (_BV SM0) (_BV SM1)))) mode) s.

Definition sleep_enable (s : hw) : hw :=
  wr MCUCR (Z.lor (rd MCUCR s) (_BV SE)) s.

Definition sei (s : hw) : hw := set_I true s.

Definition power_timer0_enable (s : hw) : hw :=
  wr PRR (Z.land (rd PRR s) (Z.lnot (_BV PRTIM0))) s.
Definition power_timer0_disable (s : hw) : hw :=
  wr PRR (Z.lor (rd PRR s) (_BV PRTIM0)) s.
Definition power_timer1_enable (s : hw) : hw :=
  wr PRR (Z.land (rd PRR s) (Z.lnot (_BV PRTIM1))) s.
Definition power_timer1_disable (s : hw) : hw :=
  wr PRR (Z.lor (rd PRR s) (_BV PRTIM1)) s.
Definition power_all_disable (s : hw) : hw :=
  wr PRR (Z.lor (rd PRR s)
            (Z.lor (_BV PRADC) (Z.lor (_BV PRTIM0) (Z.lor (_BV PRTIM1) (_BV PRUSI))))) s.

(** ** Interrupt handlers

    Both are naked and end in [ret], so the I flag, cleared when the
    interrupt is taken, stays clear. *)

Definition PCINT0_vect (s : hw) : hw :=
  wr GIMSK 0 (set_I false s).

Definition TIMER1_COMPA_vect (s : hw) : hw :=
  wr TCNT1 0 (wr TCCR1 0 (wr TIMSK 0 (set_I false s))).

(** [sleep_cpu()]: nothing happens unless sleep is enabled; in power-down
    mode the processor stops until a pin change, in idle mode until
    Timer1 reaches OCR1A.  The handler of the waking interrupt has run
    when execution resumes. *)
Definition sleep_cpu (s : hw) : hw :=
  if Z.testbit (rd MCUCR s) SE then
    let mode := Z.land (rd MCUCR s) (Z.lor (_BV SM0) (_BV SM1)) in
    if mode =? SLEEP_MODE_PWR_DOWN then PCINT0_vect (emit PoweredDown s)
    else if mode =? SLEEP_MODE_IDLE then
      TIMER1_COMPA_vect
        (emit (Slept (asked s) (rd OCR1A s) (rd TCCR1 s) (carrier s)) s)
    else s
  else s.

(** ** Power controller *)

Definition power_down_and_wait_for_pin_change (s : hw) : hw :=
  let s := wr PORTB (Z.land (rd PORTB s) (Z.lnot PORTB_OUTPUT_PIN_MASK)) s in
  let s := wr DDRB 0 s in
  let s := set_sleep_mode SLEEP_MODE_PWR_DOWN s in
  let s := wr GIMSK (_BV PCIE) s in
  let s := sei s in
  sleep_cpu s.

(** [idle_sleep(uint8_t ticks, uint8_t prescaler)]. *)
Definition idle_sleep (ticks prescaler : Z) (s : hw) : hw :=
  let s := set_sleep_mode SLEEP_MODE_IDLE s in
  let s := power_timer1_enable s in
  let s := wr OCR1A ticks s in
  let s := wr TIMSK (_BV OCIE1A) s in
  let s := wr TCCR1 prescaler s in
  let s := sei s in
  let s := sleep_cpu s in
  power_timer1_disable s.

(** The tick counts the two macros compute, in unsigned long:
    [(F_CPU*(unsigned long)(us))/(16*1000000)] and
    [(F_CPU*(unsigned long)(ms))/(4096*1000L)]. *)
Definition us_ticks (us : Z) : Z := u32 (F_CPU * u32 us) / (16 * 1000000).
Definition ms_ticks (ms : Z) : Z := u32 (F_CPU * u32 ms) / (4096 * 1000).

(** The macros [idle_sleep_us(us)] and [idle_sleep_ms(ms)]: a call of
    [idle_sleep] with the tick count and the clock select.  [note] keeps
    the macro's argument beside the hardware state, for the trace; it
    changes no register. *)
Definition idle_sleep_us (us : Z) (s : hw) : hw :=
  idle_sleep (us_ticks us) (Z.lor (_BV CS12) (_BV CS10)) (note (Micros us) s).

Definition idle_sleep_ms (ms : Z) (s : hw) : hw :=
  idle_sleep (ms_ticks ms) (Z.lor (_BV CS13) (Z.lor (_BV CS12) (_BV CS10)))
             (note (Millis ms) s).

(** ** Protocol transmitter *)

Definition ir_enabled : Z := Z.lor (_BV COM0A0) (_BV WGM01).

(** The body of [for (i = 0; i < 12; i++)], [n] iterations to go. *)
Fixpoint send_bits (n : nat) (code : Z) (s : hw) : hw :=
  match n with
  | O => s
  | S n' =>
      let s := wr TCCR0A ir_enabled s in
      let s := if Z.land code 1 =? 0
               then idle_sleep_us ZERO_BIT_ON_DURATION s
               else idle_sleep_us ONE_BIT_ON_DURATION s in
      let s := wr TCCR0A 0 s in
      let s := idle_sleep_us BIT_OFF_DURATION s in
      send_bits n' (Z.shiftr code 1) s
  end.

Definition transmit_sony_12bit_code (code : Z) (s : hw) : hw :=
  let s := power_timer0_enable s in
  (* Send the header bit *)
  let s := wr TCCR0A ir_enabled s in
  let s := wr DDRB PORTB_OUTPUT_PIN_MASK s in
  let s := idle_sleep_us HEADER_BIT_DURATION s in
  let s := wr TCCR0A 0 s in
  let s := idle_sleep_us BIT_OFF_DURATION s in
  (* Output the data bits *)
  let s := send_bits 12 code s in
  (* Post-transmission delay *)
  let s := wr DDRB 0 s in
  let s := power_timer0_disable s in
  idle_sleep_ms POST_DELAY_DURATION s.

(** ** Command resolver *)

(** The scan of [transmit_code_for_buttons] over the entries still ahead. *)
Fixpoint scan_commands (cmds : list command_def) (buttons : Z) (s : hw) : hw :=
  match cmds with
  | [] => idle_sleep_ms DEBOUNCE_DURATION s
  | cmd :: rest =>
      if buttons =? pinmask cmd
      then transmit_sony_12bit_code (code cmd) s
      else scan_commands rest buttons s
  end.

Definition transmit_code_for_buttons (buttons : Z) (s : hw) : hw :=
  scan_commands command_defs buttons s.

(** ** Main control loop *)

(** The code of [main] before its loop. *)
Definition main_init (s : hw) : hw :=
  let s := wr TCCR0A (Z.lor (_BV COM0A0) (_BV WGM01)) s in
  let s := wr OCR0A (F_CPU / (2 * IR_CARRIER_FREQ)) s in
  let s := wr TCCR0B (_BV CS00) s in
  let s := wr ACSR (Z.lor (rd ACSR s) (_BV ACD)) s in
  let s := power_all_disable s in
  let s := wr DDRB 0 s in
  let s := wr PORTB PORTB_BUTTON_PIN_MASK s in
  let s := wr PCMSK PORTB_BUTTON_PIN_MASK s in
  sleep_enable s.

(** [uint8_t buttons = (~input) & PORTB_BUTTON_PIN_MASK]. *)
Definition pressed (input : Z) : Z :=
  u8 (Z.land (Z.lnot input) PORTB_BUTTON_PIN_MASK).

(** Where [main] is between two steps: at the top of the outer loop, or
    at the top of the processing loop with its two locals. *)
Inductive control :=
| Asleep
| Processing (input last_input : Z).

(** One pass: from the top of the outer loop to the top of the processing
    loop, or once through the processing loop's body. *)
Definition main_step (c : control) (s : hw) : control * hw :=
  match c with
  | Asleep =>
      let s := power_down_and_wait_for_pin_change s in
      let s := idle_sleep_ms DEBOUNCE_DURATION s in
      let (input, s) := read_PINB s in
      (Processing input input, s)
  | Processing input last_input =>
      if input =? last_input then
        let buttons := pressed input in
        if buttons =? 0 then (Asleep, s)
        else
          let s := transmit_code_for_buttons buttons s in
          let (input', s) := read_PINB s in
          (Processing input' last_input, s)
      else
        let s := idle_sleep_ms DEBOUNCE_DURATION s in
        let (input', s) := read_PINB s in
        (Processing input' input, s)
  end.

Fixpoint main_run (n : nat) (c : control) (s : hw) : control * hw :=
  match n with
  | O => (c, s)
  | S n' => let (c', s') := main_step c s in main_run n' c' s'
  end.

(** The device at reset, with the input lines given by [p]. *)
Definition reset_state (p : nat -> Z) : hw :=
  mk_hw (fun _ => 0) false (Micros 0) p O [].

Definition main (n : nat) (p : nat -> Z) : control * hw :=
  main_run n Asleep (main_init (reset_state p)).

(** * Vocabulary of the properties *)

(** ** What [main] sets up once *)

(** Sleep has been enabled, as [main] does once before its loop. *)
Definition sleep_enabled (s : hw) : Prop := Z.testbit (rd MCUCR s) SE = true.

(** Timer0 has a clock selected, as [main] does once before its loop. *)
Definition timer0_clocked (s : hw) : bool := negb (Z.land (rd TCCR0B s) 7 =? 0).

(** ** What a sleep leaves alone *)

(** The registers [sleep_cpu] and the two handlers write. *)
Definition handler_reg (r : reg) : bool :=
  match r with GIMSK | TIMSK | TCCR1 | TCNT1 => true | _ => false end.

(** The registers [idle_sleep] writes, with those of the two handlers. *)
Definition idle_sleep_reg (r : reg) : bool :=
  match r with
  | MCUCR | PRR | OCR1A | GIMSK | TIMSK | TCCR1 | TCNT1 => true
  | _ => false
  end.

(** PB0 is an output driven by a powered, clocked Timer0: all that is
    missing for the carrier is the gate in TCCR0A. *)
Definition line_ready (s : hw) : bool :=
  Z.testbit (rd DDRB s) 0
  && negb (Z.testbit (rd PRR s) PRTIM0)
  && timer0_clocked s.

(** [steady s s']: going from [s] to [s'] changed neither the pin
    direction, nor Timer0's clock and power, nor the sleep enable, nor
    the input lines. *)
Definition steady (s s' : hw) : Prop :=
  rd DDRB s' = rd DDRB s
  /\ rd TCCR0B s' = rd TCCR0B s
  /\ Z.testbit (rd PRR s') PRTIM0 = Z.testbit (rd PRR s) PRTIM0
  /\ Z.testbit (rd MCUCR s') SE = Z.testbit (rd MCUCR s) SE
  /\ pins s' = pins s
  /\ reads s' = reads s.

(** ** The trace of a sleep macro *)

Definition presc_us : Z := Z.lor (_BV CS12) (_BV CS10).
Definition presc_ms : Z := Z.lor (_BV CS13) (Z.lor (_BV CS12) (_BV CS10)).

(** The entry [idle_sleep_us us] leaves; [k] tells whether the carrier
    was on. *)
Definition slept_us (us : Z) (k : bool) : event :=
  Slept (Micros us) (u8 (us_ticks us)) (u8 presc_us) k.

Definition slept_ms (ms : Z) (k : bool) : event :=
  Slept (Millis ms) (u8 (ms_ticks ms)) (u8 presc_ms) k.

(** ** The frame the transmitter puts on the line *)

(** On-time of the bit [code & 1]. *)
Definition bit_on_duration (code : Z) : Z :=
  if Z.land code 1 =? 0 then ZERO_BIT_ON_DURATION else ONE_BIT_ON_DURATION.

Fixpoint bit_events (k : bool) (n : nat) (code : Z) : list event :=
  match n with
  | O => []
  | S n' =>
      slept_us (bit_on_duration code) k
      :: slept_us BIT_OFF_DURATION false
      :: bit_events k n' (Z.shiftr code 1)
  end.

Definition frame (k : bool) (code : Z) : list event :=
  slept_us HEADER_BIT_DURATION k
  :: slept_us BIT_OFF_DURATION false
  :: bit_events k 12 code ++ [slept_ms POST_DELAY_DURATION false].

(** What a step added to the trace. *)
Definition emitted (s s' : hw) : list event :=
  skipn (length (trace s)) (trace s').

(** ** Waveforms *)

(** An interval of the output line: carrier on or off, and for how many
    microseconds. *)
Definition interval : Type := bool * Z.

(** The duration a caller named, in microseconds. *)
Definition nominal_us (d : duration) : Z :=
  match d with
  | Micros us => us
  | Millis ms => 1000 * ms
  end.

(** The time Timer1 takes to count [ticks] with clock select [cs]
    (the ATtiny25/45/85 divides the clock by 2^(cs-1)), in microseconds. *)
Definition timer_us (ticks cs : Z) : Z :=
  ticks * 2 ^ (cs - 1) * 1000000 / F_CPU.

Definition wave (f : duration -> Z -> Z -> Z) (tr : list event) : list interval :=
  flat_map (fun e => match e with
                     | Slept d t p k => [(k, f d t p)]
                     | _ => []
                     end) tr.

(** The waveform with the durations the code asks for. *)
Definition asked_wave : list event -> list interval :=
  wave (fun d _ _ => nominal_us d).

(** The waveform with the durations Timer1 is programmed to. *)
Definition timer_wave : list event -> list interval :=
  wave (fun _ t p => timer_us t p).

Definition on_time (w : list interval) : Z :=
  fold_right (fun (i : interval) acc => if fst i then snd i + acc else acc) 0 w.

Definition off_time (w : list interval) : Z :=
  fold_right (fun (i : interval) acc => if fst i then acc else snd i + acc) 0 w.

(** ** A reference Sony 12-bit receiver

    Follows the format: a 2400 us header mark, then twelve bits, each a
    mark of 1200 us (one) or 600 us (zero) after a 600 us space, least
    significant bit first, then silence.  A measured time matches a
    nominal one within a quarter of it, as receivers do. *)

Definition near (want got : Z) : bool :=
  (3 * want <=? 4 * got) && (4 * got <=? 5 * want).

(** Adjacent intervals of the same level are one interval on the line. *)
Fixpoint merge_from (cur : interval) (w : list interval) : list interval :=
  match w with
  | [] => [cur]
  | i :: w' =>
      if Bool.eqb (fst cur) (fst i)
      then merge_from (fst cur, snd cur + snd i) w'
      else cur :: merge_from i w'
  end.

Definition merge (w : list interval) : list interval :=
  match w with
  | [] => []
  | i :: w' => merge_from i w'
  end.

Definition decode_mark (m : Z) : option Z :=
  if near 1200 m then Some 1
  else if near 600 m then Some 0
  else None.

(** [w] starts at the mark of the next bit; the space that ends it is the
    space before the next mark, or the closing silence after the last. *)
Fixpoint decode_bits (n : nat) (w : list interval) : option Z :=
  match n, w with
  | O, [] => Some 0
  | S n', (true, m) :: (false, sp) :: w' =>
      let space_ok := match n' with
                      | O => 3 * 600 <=? 4 * sp
                      | S _ => near 600 sp
                      end in
      if space_ok then
        match decode_mark m, decode_bits n' w' with
        | Some b, Some r => Some (b + 2 * r)
        | _, _ => None
        end
      else None
  | _, _ => None
  end.

Definition sony12_decode (w : list interval) : option Z :=
  match merge w with
  | (true, h) :: (false, sp) :: w' =>
      if near 2400 h && near 600 sp then decode_bits 12 w' else None
  | _ => None
  end.

(** ** The line as the receiver sees it *)

(** The time of an entry of the trace under the timing [f]. *)
Definition event_us (f : duration -> Z -> Z -> Z) (e : event) : Z :=
  match e with
  | Slept d t p _ => f d t p
  | _ => 0
  end.

(** The line from the space before a bit to the end of the frame, as the
    receiver sees it. *)
Definition line_tail (f : duration -> Z -> Z -> Z) (n : nat) (code : Z) : list interval :=
  merge_from (false, event_us f (slept_us BIT_OFF_DURATION false))
    (wave f (bit_events true n code ++ [slept_ms POST_DELAY_DURATION false])).

(** ** The end of a transmission *)

(** The state in which [transmit_sony_12bit_code] starts its
    post-transmission delay. *)
Definition before_post_delay (code : Z) (s : hw) : hw :=
  let s := power_timer0_enable s in
  let s := wr TCCR0A ir_enabled s in
  let s := wr DDRB PORTB_OUTPUT_PIN_MASK s in
  let s := idle_sleep_us HEADER_BIT_DURATION s in
  let s := wr TCCR0A 0 s in
  let s := idle_sleep_us BIT_OFF_DURATION s in
  let s := send_bits 12 code s in
  let s := wr DDRB 0 s in
  power_timer0_disable s.

(** ** A state to run examples in *)

(** A state as [main] leaves it before its loop, the input lines at rest. *)
Definition ready_state : hw := main_init (reset_state (fun _ => 30)).

(** ** The frame as the format words it *)

(** The twelve bits of the Sony format, least significant first: a mark
    of 1200 us for a one and of 600 us for a zero, each followed by a
    space of 600 us. *)
Fixpoint sony_bit_intervals (n : nat) (c : Z) : list interval :=
  match n with
  | O => []
  | S n' =>
      (true, if Z.testbit c 0 then 1200 else 600)
      :: (false, 600)
      :: sony_bit_intervals n' (Z.shiftr c 1)
  end.


(** ** The bits on the line *)

(** The bits a frame carries, first sent first: every mark after the
    header, a one if it lasts [ONE_BIT_ON_DURATION]. *)
Definition sent_bits (tr : list event) : list Z :=
  map (fun i : interval => if snd i =? ONE_BIT_ON_DURATION then 1 else 0)
      (tl (filter (fun i : interval => fst i) (asked_wave tr))).

(** The value of a bit sequence that starts with the least significant bit. *)
Definition lsb_first_value (bits : list Z) : Z :=
  fold_right (fun b acc => b + 2 * acc) 0 bits.

(** ** The debounce rule *)

(** The rule as the specification words it: every reading the
    processing loop treats as stable ([input == last_input]) has been
    confirmed by two equal samples one debounce sleep apart. *)
Definition two_sample_rule : Prop :=
  forall (p : nat -> Z) (n : nat) (input last_input : Z) (s : hw),
    main n p = (Processing input last_input, s) ->
    input = last_input ->
    exists pre k,
      trace s = pre ++ [Sampled input; slept_ms DEBOUNCE_DURATION k; Sampled input].

(** ** Registers a function writes *)

(** The registers [idle_sleep] writes, its interrupt handler included. *)
Definition sleep_owned (r : reg) : bool :=
  match r with
  | MCUCR | PRR | OCR1A | TIMSK | TCCR1 | TCNT1 => true
  | _ => false
  end.

(** The registers [transmit_sony_12bit_code] writes, its sleeps included. *)
Definition transmit_owned (r : reg) : bool :=
  match r with
  | TCCR0A | DDRB => true
  | _ => sleep_owned r
  end.

(** The registers [power_down_and_wait_for_pin_change] writes, its
    interrupt handler included. *)
Definition power_down_owned (r : reg) : bool :=
  match r with
  | PORTB | DDRB | MCUCR | GIMSK => true
  | _ => false
  end.

(** Going from [s] to [s'] changed no register outside [P]. *)
Definition untouched (P : reg -> bool) (s s' : hw) : Prop :=
  forall r, P r = false -> rd r s' = rd r s.

(** ** The device between two passes of [main]'s loops *)

(** Everything is off and disarmed: sleep enabled, Timer0 configured for
    the carrier but without power, as are Timer1, the USI and the ADC,
    the comparator disabled, every pin an input, pull-ups and pin-change
    mask on the button lines, no interrupt enabled. *)
Definition at_rest (s : hw) : Prop :=
  sleep_enabled s
  /\ rd TCCR0B s = _BV CS00
  /\ rd OCR0A s = F_CPU / (2 * IR_CARRIER_FREQ)
  /\ rd ACSR s = _BV ACD
  /\ rd PRR s = 15
  /\ rd DDRB s = 0
  /\ rd PORTB s = PORTB_BUTTON_PIN_MASK
  /\ rd PCMSK s = PORTB_BUTTON_PIN_MASK
  /\ rd GIMSK s = 0
  /\ rd TIMSK s = 0
  /\ rd TCCR1 s = 0
  /\ I_flag s = false.

(** ** What [main] puts in the trace *)

(** One pass of [main] adds nothing or one of these: a wake-up with its
    debounce sleep and sample; a debounce sleep and a sample; the frame
    of a table entry and a sample.  The carrier is on in frames only. *)
Inductive segment : list event -> Prop :=
| seg_wake (v : Z) :
    segment [PoweredDown; slept_ms DEBOUNCE_DURATION false; Sampled v]
| seg_wait (v : Z) :
    segment [slept_ms DEBOUNCE_DURATION false; Sampled v]
| seg_frame (cmd : command_def) (v : Z) :
    In cmd command_defs ->
    segment (frame true (code cmd) ++ [Sampled v]).

Inductive main_trace : list event -> Prop :=
| main_trace_nil : main_trace []
| main_trace_snoc (tr seg : list event) :
    main_trace tr -> segment seg -> main_trace (tr ++ seg).

(** ** Counting the one bits of a code *)

(** The number of ones among the low [n] bits of [c]. *)
Fixpoint ones (n : nat) (c : Z) : Z :=
  match n with
  | O => 0
  | S n' => (if Z.testbit c 0 then 1 else 0) + ones n' (Z.shiftr c 1)
  end.

(** * Proofs *)

(** ** Registers and bits *)

Lemma u8_land (x : Z) : u8 x = Z.land x 255.
Proof. unfold u8. change 256 with (2 ^ 8). rewrite <- Z.land_ones by lia. reflexivity. Qed.

Lemma testbit_u8 (x n : Z) :
  0 <= n < 8 -> Z.testbit (u8 x) n = Z.testbit x n.
Proof.
  intros H. unfold u8. change 256 with (2 ^ 8).
  apply Z.mod_pow2_bits_low. lia.
Qed.

Lemma rd_wr_same r v s : rd r (wr r v s) = u8 v.
Proof. unfold rd, wr; simpl. destruct r; reflexivity. Qed.

Lemma rd_wr_other r r' v s : reg_eqb r r' = false -> rd r' (wr r v s) = rd r' s.
Proof. unfold rd, wr; simpl. intros ->. reflexivity. Qed.

Lemma set_sleep_mode_enabled mode s :
  Z.testbit mode SE = false ->
  Z.testbit (rd MCUCR (set_sleep_mode mode s)) SE = Z.testbit (rd MCUCR s) SE.
Proof.
  intros Hm. unfold set_sleep_mode. rewrite rd_wr_same.
  rewrite testbit_u8 by (unfold SE; lia).
  rewrite Z.lor_spec, Z.land_spec, Hm.
  change (Z.testbit (Z.lnot (Z.lor (_BV SM0) (_BV SM1))) SE) with true.
  rewrite andb_true_r, orb_false_r. reflexivity.
Qed.

Lemma set_sleep_mode_mode mode s :
  Z.land mode (Z.lor (_BV SM0) (_BV SM1)) = mode ->
  Z.land (rd MCUCR (set_sleep_mode mode s)) (Z.lor (_BV SM0) (_BV SM1)) = mode.
Proof.
  intros Hm. unfold set_sleep_mode. rewrite rd_wr_same, u8_land.
  rewrite <- Z.land_assoc.
  change (Z.land 255 (Z.lor (_BV SM0) (_BV SM1))) with (Z.lor (_BV SM0) (_BV SM1)).
  rewrite Z.land_lor_distr_l, <- Z.land_assoc.
  change (Z.land (Z.lnot (Z.lor (_BV SM0) (_BV SM1))) (Z.lor (_BV SM0) (_BV SM1))) with 0.
  rewrite Z.land_0_r, Z.lor_0_l. exact Hm.
Qed.

Lemma rd_set_I r b s : rd r (set_I b s) = rd r s.
Proof. reflexivity. Qed.
Lemma rd_note r d s : rd r (note d s) = rd r s.
Proof. reflexivity. Qed.
Lemma rd_emit r e s : rd r (emit e s) = rd r s.
Proof. reflexivity. Qed.

Ltac rd_simpl :=
  repeat (rewrite rd_wr_same
          || (rewrite rd_wr_other by reflexivity)
          || rewrite rd_set_I || rewrite rd_note || rewrite rd_emit).

Lemma sleep_cpu_rd r s : handler_reg r = false -> rd r (sleep_cpu s) = rd r s.
Proof.
  intros Hr. unfold sleep_cpu, PCINT0_vect, TIMER1_COMPA_vect.
  destruct (Z.testbit (rd MCUCR s) SE); [|reflexivity].
  destruct (_ =? SLEEP_MODE_PWR_DOWN).
  - destruct r; try discriminate; reflexivity.
  - destruct (_ =? SLEEP_MODE_IDLE); [|reflexivity].
    destruct r; try discriminate; reflexivity.
Qed.

Lemma idle_sleep_rd r t p s :
  idle_sleep_reg r = false -> rd r (idle_sleep t p s) = rd r s.
Proof.
  intros Hr. unfold idle_sleep, power_timer1_disable, power_timer1_enable,
    set_sleep_mode, sei.
  destruct r; try discriminate; rd_simpl; rewrite sleep_cpu_rd by reflexivity;
    rd_simpl; reflexivity.
Qed.

Lemma idle_sleep_timer0_power t p s :
  Z.testbit (rd PRR (idle_sleep t p s)) PRTIM0 = Z.testbit (rd PRR s) PRTIM0.
Proof.
  unfold idle_sleep, power_timer1_disable, power_timer1_enable, sei.
  rd_simpl. rewrite sleep_cpu_rd by reflexivity. rd_simpl.
  rewrite testbit_u8 by (unfold PRTIM0; lia). rewrite Z.lor_spec.
  rewrite testbit_u8 by (unfold PRTIM0; lia). rewrite Z.land_spec.
  change (Z.testbit (_BV PRTIM1) PRTIM0) with false.
  change (Z.testbit (Z.lnot (_BV PRTIM1)) PRTIM0) with true.
  rewrite orb_false_r, andb_true_r. unfold set_sleep_mode. rd_simpl. reflexivity.
Qed.

Lemma idle_sleep_enabled_bit t p s :
  Z.testbit (rd MCUCR (idle_sleep t p s)) SE = Z.testbit (rd MCUCR s) SE.
Proof.
  unfold idle_sleep, power_timer1_disable, power_timer1_enable, sei.
  rd_simpl. rewrite sleep_cpu_rd by reflexivity. rd_simpl.
  apply set_sleep_mode_enabled. reflexivity.
Qed.

Lemma idle_sleep_carrier t p s : carrier (idle_sleep t p s) = carrier s.
Proof.
  unfold carrier. rewrite idle_sleep_timer0_power.
  rewrite !idle_sleep_rd by reflexivity. reflexivity.
Qed.

Lemma sleep_cpu_idle s :
  sleep_enabled s ->
  Z.land (rd MCUCR s) (Z.lor (_BV SM0) (_BV SM1)) = SLEEP_MODE_IDLE ->
  sleep_cpu s
  = TIMER1_COMPA_vect
      (emit (Slept (asked s) (rd OCR1A s) (rd TCCR1 s) (carrier s)) s).
Proof.
  intros He Hm. unfold sleep_cpu. rewrite He, Hm. reflexivity.
Qed.

Lemma sleep_cpu_pwr_down s :
  sleep_enabled s ->
  Z.land (rd MCUCR s) (Z.lor (_BV SM0) (_BV SM1)) = SLEEP_MODE_PWR_DOWN ->
  sleep_cpu s = PCINT0_vect (emit PoweredDown s).
Proof.
  intros He Hm. unfold sleep_cpu. rewrite He, Hm. reflexivity.
Qed.

Lemma idle_sleep_trace t p s :
  sleep_enabled s ->
  trace (idle_sleep t p s)
  = trace s ++ [Slept (asked s) (u8 t) (u8 p) (carrier s)].
Proof.
  intros He. unfold idle_sleep. rewrite sleep_cpu_idle.
  - unfold power_timer1_disable, TIMER1_COMPA_vect, sei, power_timer1_enable.
    cbn [trace wr set_I emit]. rd_simpl. f_equal. f_equal. f_equal.
    unfold carrier. rd_simpl.
    rewrite testbit_u8 by (unfold PRTIM0; lia). rewrite Z.land_spec.
    change (Z.testbit (Z.lnot (_BV PRTIM1)) PRTIM0) with true.
    rewrite andb_true_r. unfold set_sleep_mode. rd_simpl. reflexivity.
  - unfold sleep_enabled, sei, power_timer1_enable. rd_simpl.
    rewrite set_sleep_mode_enabled by reflexivity. exact He.
  - unfold sei, power_timer1_enable. rd_simpl.
    apply set_sleep_mode_mode. reflexivity.
Qed.

Lemma idle_sleep_pins t p s : pins (idle_sleep t p s) = pins s.
Proof.
  unfold idle_sleep, sleep_cpu.
  repeat match goal with |- context [if ?c then _ else _] => destruct c end;
    reflexivity.
Qed.

Lemma idle_sleep_reads t p s : reads (idle_sleep t p s) = reads s.
Proof.
  unfold idle_sleep, sleep_cpu.
  repeat match goal with |- context [if ?c then _ else _] => destruct c end;
    reflexivity.
Qed.

Lemma carrier_gate s :
  carrier s = Z.testbit (rd TCCR0A s) COM0A0 && line_ready s.
Proof. unfold carrier, line_ready, timer0_clocked. rewrite !andb_assoc. reflexivity. Qed.

Lemma steady_refl s : steady s s.
Proof. repeat split. Qed.

Lemma steady_trans s1 s2 s3 : steady s1 s2 -> steady s2 s3 -> steady s1 s3.
Proof.
  intros (a1 & a2 & a3 & a4 & a5 & a6) (b1 & b2 & b3 & b4 & b5 & b6).
  repeat split; congruence.
Qed.

Lemma steady_line_ready s s' : steady s s' -> line_ready s' = line_ready s.
Proof.
  intros (a1 & a2 & a3 & _). unfold line_ready, timer0_clocked.
  rewrite a1, a2, a3. reflexivity.
Qed.

Lemma steady_sleep_enabled s s' : steady s s' -> sleep_enabled s -> sleep_enabled s'.
Proof. intros (_ & _ & _ & a4 & _) He. unfold sleep_enabled in *. congruence. Qed.

Lemma steady_wr_TCCR0A v s : steady s (wr TCCR0A v s).
Proof. repeat split. Qed.

Lemma steady_note d s : steady s (note d s).
Proof. repeat split. Qed.

Lemma steady_idle_sleep t p s : steady s (idle_sleep t p s).
Proof.
  unfold steady. rewrite !idle_sleep_rd by reflexivity.
  rewrite idle_sleep_timer0_power, idle_sleep_enabled_bit.
  rewrite idle_sleep_pins, idle_sleep_reads. repeat split.
Qed.

Lemma steady_idle_sleep_us us s : steady s (idle_sleep_us us s).
Proof.
  unfold idle_sleep_us.
  eapply steady_trans; [apply steady_note | apply steady_idle_sleep].
Qed.

Lemma steady_idle_sleep_ms ms s : steady s (idle_sleep_ms ms s).
Proof.
  unfold idle_sleep_ms.
  eapply steady_trans; [apply steady_note | apply steady_idle_sleep].
Qed.

Lemma idle_sleep_us_trace us s :
  sleep_enabled s ->
  trace (idle_sleep_us us s) = trace s ++ [slept_us us (carrier s)].
Proof.
  intros He. unfold idle_sleep_us. rewrite idle_sleep_trace by exact He.
  reflexivity.
Qed.

Lemma idle_sleep_ms_trace ms s :
  sleep_enabled s ->
  trace (idle_sleep_ms ms s) = trace s ++ [slept_ms ms (carrier s)].
Proof.
  intros He. unfold idle_sleep_ms. rewrite idle_sleep_trace by exact He.
  reflexivity.
Qed.

Lemma idle_sleep_us_TCCR0A us s : rd TCCR0A (idle_sleep_us us s) = rd TCCR0A s.
Proof. unfold idle_sleep_us. rewrite idle_sleep_rd by reflexivity. reflexivity. Qed.

Lemma idle_sleep_ms_TCCR0A ms s : rd TCCR0A (idle_sleep_ms ms s) = rd TCCR0A s.
Proof. unfold idle_sleep_ms. rewrite idle_sleep_rd by reflexivity. reflexivity. Qed.

Lemma send_bits_spec n : forall code s,
  sleep_enabled s ->
  rd TCCR0A s = 0 ->
  trace (send_bits n code s) = trace s ++ bit_events (line_ready s) n code
  /\ steady s (send_bits n code s)
  /\ rd TCCR0A (send_bits n code s) = 0.
Proof.
  induction n as [|n IH]; intros code s He H0.
  - simpl. rewrite app_nil_r. auto using steady_refl.
  - cbn [send_bits bit_events].
    set (s1 := wr TCCR0A ir_enabled s).
    set (s2 := if Z.land code 1 =? 0
               then idle_sleep_us ZERO_BIT_ON_DURATION s1
               else idle_sleep_us ONE_BIT_ON_DURATION s1).
    set (s3 := wr TCCR0A 0 s2).
    set (s4 := idle_sleep_us BIT_OFF_DURATION s3).
    assert (E1 : sleep_enabled s1) by exact He.
    assert (S2 : steady s1 s2).
    { unfold s2. destruct (Z.land code 1 =? 0); apply steady_idle_sleep_us. }
    assert (T2 : trace s2 = trace s ++ [slept_us (bit_on_duration code) (line_ready s)]).
    { unfold s2, bit_on_duration.
      destruct (Z.land code 1 =? 0); rewrite idle_sleep_us_trace by exact E1;
        rewrite carrier_gate; reflexivity. }
    assert (S3 : steady s s3).
    { eapply steady_trans; [exact S2 | apply steady_wr_TCCR0A]. }
    assert (E3 : sleep_enabled s3) by (eapply steady_sleep_enabled; eauto).
    assert (S4 : steady s s4).
    { eapply steady_trans; [exact S3 | apply steady_idle_sleep_us]. }
    assert (T4 : trace s4 = trace s2 ++ [slept_us BIT_OFF_DURATION false]).
    { unfold s4. rewrite idle_sleep_us_trace by exact E3. reflexivity. }
    assert (E4 : sleep_enabled s4) by (eapply steady_sleep_enabled; eauto).
    assert (Z4 : rd TCCR0A s4 = 0).
    { unfold s4. rewrite idle_sleep_us_TCCR0A. reflexivity. }
    destruct (IH (Z.shiftr code 1) s4 E4 Z4) as (T & St & Zf).
    split; [|split].
    + rewrite T, T4, T2, (steady_line_ready _ _ S4), <- !app_assoc. reflexivity.
    + eapply steady_trans; eauto.
    + exact Zf.
Qed.

Lemma power_timer0_enable_bit s :
  Z.testbit (rd PRR (power_timer0_enable s)) PRTIM0 = false.
Proof.
  unfold power_timer0_enable. rd_simpl.
  rewrite testbit_u8 by (unfold PRTIM0; lia). rewrite Z.land_spec.
  change (Z.testbit (Z.lnot (_BV PRTIM0)) PRTIM0) with false.
  apply andb_false_r.
Qed.

Lemma power_timer0_disable_bit s :
  Z.testbit (rd PRR (power_timer0_disable s)) PRTIM0 = true.
Proof.
  unfold power_timer0_disable. rd_simpl.
  rewrite testbit_u8 by (unfold PRTIM0; lia). rewrite Z.lor_spec.
  change (Z.testbit (_BV PRTIM0) PRTIM0) with true.
  apply orb_true_r.
Qed.

Lemma carrier_gate_off s : carrier (wr TCCR0A 0 s) = false.
Proof. rewrite carrier_gate, rd_wr_same. reflexivity. Qed.

Lemma trace_wr r v s : trace (wr r v s) = trace s.
Proof. reflexivity. Qed.

Lemma pins_wr r v s : pins (wr r v s) = pins s.
Proof. reflexivity. Qed.

Lemma reads_wr r v s : reads (wr r v s) = reads s.
Proof. reflexivity. Qed.

(** Everything the claims need of one call of the transmitter. *)
Lemma transmit_spec code s :
  sleep_enabled s ->
  let s' := transmit_sony_12bit_code code s in
  trace s' = trace s ++ frame (timer0_clocked s) code
  /\ rd TCCR0A s' = 0
  /\ rd DDRB s' = 0
  /\ Z.testbit (rd PRR s') PRTIM0 = true
  /\ sleep_enabled s'
  /\ rd TCCR0B s' = rd TCCR0B s
  /\ pins s' = pins s
  /\ reads s' = reads s.
Proof.
  intros He. unfold transmit_sony_12bit_code.
  set (s1 := wr DDRB PORTB_OUTPUT_PIN_MASK (wr TCCR0A ir_enabled (power_timer0_enable s))).
  set (s2 := idle_sleep_us HEADER_BIT_DURATION s1).
  set (s3 := wr TCCR0A 0 s2).
  set (s4 := idle_sleep_us BIT_OFF_DURATION s3).
  set (s5 := send_bits 12 code s4).
  set (s6 := power_timer0_disable (wr DDRB 0 s5)).
  assert (E1 : sleep_enabled s1) by exact He.
  assert (R1 : line_ready s1 = timer0_clocked s).
  { unfold line_ready. unfold s1 at 1 2. rd_simpl.
    rewrite power_timer0_enable_bit. reflexivity. }
  assert (T2 : trace s2 = trace s ++ [slept_us HEADER_BIT_DURATION (timer0_clocked s)]).
  { unfold s2. rewrite idle_sleep_us_trace by exact E1.
    rewrite carrier_gate, R1. reflexivity. }
  assert (S3 : steady s1 s3).
  { eapply steady_trans; [apply steady_idle_sleep_us | apply steady_wr_TCCR0A]. }
  assert (E3 : sleep_enabled s3) by (eapply steady_sleep_enabled; eauto).
  assert (S4 : steady s1 s4).
  { eapply steady_trans; [exact S3 | apply steady_idle_sleep_us]. }
  assert (T4 : trace s4 = trace s2 ++ [slept_us BIT_OFF_DURATION false]).
  { unfold s4. rewrite idle_sleep_us_trace by exact E3.
    unfold s3. rewrite carrier_gate_off, trace_wr. reflexivity. }
  assert (E4 : sleep_enabled s4) by (eapply steady_sleep_enabled; eauto).
  assert (Z4 : rd TCCR0A s4 = 0).
  { unfold s4. rewrite idle_sleep_us_TCCR0A. unfold s3. rewrite rd_wr_same. reflexivity. }
  destruct (send_bits_spec 12 code s4 E4 Z4) as (T5 & S5 & Z5). fold s5 in T5, S5, Z5.
  assert (S15 : steady s1 s5) by (eapply steady_trans; eauto).
  assert (E6 : sleep_enabled s6).
  { unfold sleep_enabled, s6, power_timer0_disable. rd_simpl.
    apply (steady_sleep_enabled _ _ S15 E1). }
  assert (C6 : carrier s6 = false).
  { unfold carrier. unfold s6 at 1 2. unfold power_timer0_disable. rd_simpl.
    rewrite Z5. reflexivity. }
  assert (B6 : rd TCCR0B s6 = rd TCCR0B s).
  { unfold s6, power_timer0_disable. rd_simpl.
    destruct S15 as (_ & b & _). rewrite b. reflexivity. }
  pose proof (steady_idle_sleep_ms POST_DELAY_DURATION s6) as (_ & b & _ & e & p & r).
  cbv zeta. repeat split.
  - rewrite idle_sleep_ms_trace by exact E6. rewrite C6.
    unfold s6, power_timer0_disable. rewrite !trace_wr.
    rewrite T5, T4, T2, (steady_line_ready _ _ S4), R1.
    unfold frame. rewrite <- !app_assoc. reflexivity.
  - rewrite idle_sleep_ms_TCCR0A. unfold s6, power_timer0_disable. rd_simpl.
    exact Z5.
  - unfold idle_sleep_ms. rewrite idle_sleep_rd by reflexivity.
    unfold s6, power_timer0_disable. rd_simpl. reflexivity.
  - unfold idle_sleep_ms. rewrite idle_sleep_timer0_power. rewrite rd_note.
    apply power_timer0_disable_bit.
  - unfold sleep_enabled. rewrite e. exact E6.
  - rewrite b. exact B6.
  - rewrite p. destruct S15 as (_ & _ & _ & _ & p' & _).
    unfold s6, power_timer0_disable. rewrite !pins_wr, p'.
    unfold s1, power_timer0_enable. rewrite !pins_wr. reflexivity.
  - rewrite r. destruct S15 as (_ & _ & _ & _ & _ & r').
    unfold s6, power_timer0_disable. rewrite !reads_wr, r'.
    unfold s1, power_timer0_enable. rewrite !reads_wr. reflexivity.
Qed.

Lemma emitted_app s s' l : trace s' = trace s ++ l -> emitted s s' = l.
Proof.
  intros H. unfold emitted. rewrite H.
  rewrite skipn_app, skipn_all, Nat.sub_diag. reflexivity.
Qed.

(** ** Decoding a frame *)

Lemma land_1_mod (c : Z) : Z.land c 1 = c mod 2.
Proof. change 1 with (Z.ones 1). rewrite Z.land_ones by lia. reflexivity. Qed.

Lemma shiftr_1_div (c : Z) : Z.shiftr c 1 = c / 2.
Proof. rewrite Z.shiftr_div_pow2 by lia. reflexivity. Qed.

Lemma mod_pow2_succ (c : Z) (n : nat) :
  c mod 2 ^ Z.of_nat (S n) = c mod 2 + 2 * ((c / 2) mod 2 ^ Z.of_nat n).
Proof.
  rewrite Nat2Z.inj_succ, Z.pow_succ_r by lia.
  apply Z.rem_mul_r; [lia | apply Z.pow_pos_nonneg; lia].
Qed.

Lemma decode_bits_step n m sp w :
  decode_bits (S (S n)) ((true, m) :: (false, sp) :: w)
  = if near 600 sp then
      match decode_mark m, decode_bits (S n) w with
      | Some b, Some r => Some (b + 2 * r)
      | _, _ => None
      end
    else None.
Proof. reflexivity. Qed.

Section Decoding.

(** Any way of timing the entries of the trace that stays within the
    receiver's tolerance. *)
Variable f : duration -> Z -> Z -> Z.

Hypothesis header_ok :
  near 2400 (event_us f (slept_us HEADER_BIT_DURATION true)) = true.
Hypothesis space_ok :
  near 600 (event_us f (slept_us BIT_OFF_DURATION false)) = true.
Hypothesis zero_ok :
  decode_mark (event_us f (slept_us ZERO_BIT_ON_DURATION true)) = Some 0.
Hypothesis one_ok :
  decode_mark (event_us f (slept_us ONE_BIT_ON_DURATION true)) = Some 1.
Hypothesis gap_ok :
  0 <= event_us f (slept_ms POST_DELAY_DURATION false).

Lemma line_tail_O code :
  line_tail f O code
  = [(false, event_us f (slept_us BIT_OFF_DURATION false)
             + event_us f (slept_ms POST_DELAY_DURATION false))].
Proof. reflexivity. Qed.

Lemma line_tail_S n code :
  line_tail f (S n) code
  = (false, event_us f (slept_us BIT_OFF_DURATION false))
    :: (true, event_us f (slept_us (bit_on_duration code) true))
    :: line_tail f n (Z.shiftr code 1).
Proof. reflexivity. Qed.

Lemma decode_mark_bit code :
  decode_mark (event_us f (slept_us (bit_on_duration code) true)) = Some (code mod 2).
Proof.
  unfold bit_on_duration. rewrite land_1_mod.
  assert (Hb : 0 <= code mod 2 < 2) by (apply Z.mod_pos_bound; lia).
  destruct (Z.eqb_spec (code mod 2) 0) as [E|E].
  - rewrite zero_ok, E. reflexivity.
  - rewrite one_ok. f_equal. lia.
Qed.

Lemma decode_bits_tail n : forall code,
  decode_bits (S n)
    ((true, event_us f (slept_us (bit_on_duration code) true))
     :: line_tail f n (Z.shiftr code 1))
  = Some (code mod 2 ^ Z.of_nat (S n)).
Proof.
  induction n as [|n IH]; intros code.
  - rewrite line_tail_O. cbn [decode_bits].
    replace (3 * 600 <=? 4 * (event_us f (slept_us BIT_OFF_DURATION false)
                              + event_us f (slept_ms POST_DELAY_DURATION false)))
      with true.
    + rewrite decode_mark_bit. f_equal.
      change (2 ^ Z.of_nat 1) with 2. lia.
    + symmetry. apply Z.leb_le. pose proof space_ok as Hs. unfold near in Hs.
      apply andb_prop in Hs. destruct Hs as [H _].
      apply Z.leb_le in H. lia.
  - rewrite line_tail_S, decode_bits_step, space_ok.
    rewrite decode_mark_bit, IH, (mod_pow2_succ code (S n)), shiftr_1_div.
    reflexivity.
Qed.

Lemma decode_frame code :
  sony12_decode (wave f (frame true code)) = Some (code mod 4096).
Proof.
  unfold sony12_decode, frame.
  change (merge (wave f (slept_us HEADER_BIT_DURATION true
                         :: slept_us BIT_OFF_DURATION false
                         :: bit_events true 12 code ++ [slept_ms POST_DELAY_DURATION false])))
    with ((true, event_us f (slept_us HEADER_BIT_DURATION true)) :: line_tail f 12 code).
  rewrite line_tail_S, header_ok, space_ok.
  cbn [andb]. apply (decode_bits_tail 11).
Qed.

End Decoding.

(** ** The registers after a transmission *)

Lemma send_bits_regs n : forall code s,
  steady s (send_bits n code s)
  /\ (rd TCCR0A s = 0 -> rd TCCR0A (send_bits n code s) = 0).
Proof.
  induction n as [|n IH]; intros code s.
  - simpl. auto using steady_refl.
  - cbn [send_bits].
    set (s2 := if Z.land code 1 =? 0
               then idle_sleep_us ZERO_BIT_ON_DURATION (wr TCCR0A ir_enabled s)
               else idle_sleep_us ONE_BIT_ON_DURATION (wr TCCR0A ir_enabled s)).
    set (s4 := idle_sleep_us BIT_OFF_DURATION (wr TCCR0A 0 s2)).
    assert (S2 : steady s s2).
    { unfold s2. destruct (Z.land code 1 =? 0);
        (eapply steady_trans; [apply steady_wr_TCCR0A | apply steady_idle_sleep_us]). }
    assert (S4 : steady s s4).
    { unfold s4. eapply steady_trans; [exact S2|].
      eapply steady_trans; [apply steady_wr_TCCR0A | apply steady_idle_sleep_us]. }
    assert (Z4 : rd TCCR0A s4 = 0).
    { unfold s4. rewrite idle_sleep_us_TCCR0A, rd_wr_same. reflexivity. }
    destruct (IH (Z.shiftr code 1) s4) as (St & Zf). split.
    + eapply steady_trans; eauto.
    + intros _. auto.
Qed.

Lemma transmit_post_delay code s :
  transmit_sony_12bit_code code s
  = idle_sleep_ms POST_DELAY_DURATION (before_post_delay code s).
Proof. reflexivity. Qed.

Lemma before_post_delay_regs code s :
  let s' := before_post_delay code s in
  rd TCCR0A s' = 0 /\ rd DDRB s' = 0 /\ Z.testbit (rd PRR s') PRTIM0 = true.
Proof.
  unfold before_post_delay.
  set (s4 := idle_sleep_us BIT_OFF_DURATION _).
  assert (Z4 : rd TCCR0A s4 = 0).
  { unfold s4. rewrite idle_sleep_us_TCCR0A, rd_wr_same. reflexivity. }
  destruct (send_bits_regs 12 code s4) as (_ & Z5). specialize (Z5 Z4).
  cbv zeta. split; [|split].
  - unfold power_timer0_disable. rd_simpl. exact Z5.
  - unfold power_timer0_disable. rd_simpl. reflexivity.
  - apply power_timer0_disable_bit.
Qed.

Lemma released_no_carrier s :
  rd TCCR0A s = 0 -> carrier s = false.
Proof. intros H. rewrite carrier_gate, H. reflexivity. Qed.

(** C10: every call of [transmit_sony_12bit_code], whatever the code and
    the state it starts in, has cleared the carrier gate (TCCR0A = 0),
    made every port-B pin an input (DDRB = 0) and powered Timer0 down
    when its post-transmission sleep begins, so no carrier is on the line
    then, and all of this still holds when it returns. *)
Theorem transmit_releases_line (code : Z) (s : hw) :
  let before := before_post_delay code s in
  let after := transmit_sony_12bit_code code s in
  after = idle_sleep_ms POST_DELAY_DURATION before
  /\ (rd TCCR0A before = 0 /\ rd DDRB before = 0
      /\ Z.testbit (rd PRR before) PRTIM0 = true /\ carrier before = false)
  /\ (rd TCCR0A after = 0 /\ rd DDRB after = 0
      /\ Z.testbit (rd PRR after) PRTIM0 = true /\ carrier after = false).
Proof.
  intros before after.
  destruct (before_post_delay_regs code s) as (Za & Zd & Zp).
  fold before in Za, Zd, Zp.
  assert (Ha : rd TCCR0A after = 0).
  { unfold after. rewrite transmit_post_delay, idle_sleep_ms_TCCR0A. exact Za. }
  split; [reflexivity|]. split.
  - auto using released_no_carrier.
  - split; [exact Ha|]. split; [|split; [|apply released_no_carrier; exact Ha]].
    + unfold after. rewrite transmit_post_delay. unfold idle_sleep_ms.
      rewrite idle_sleep_rd by reflexivity. rewrite rd_note. exact Zd.
    + unfold after. rewrite transmit_post_delay. unfold idle_sleep_ms.
      rewrite idle_sleep_timer0_power, rd_note. exact Zp.
Qed.

(** ** The frame depends on twelve bits *)

Lemma send_bits_low n : forall c1 c2 s,
  c1 mod 2 ^ Z.of_nat n = c2 mod 2 ^ Z.of_nat n ->
  send_bits n c1 s = send_bits n c2 s.
Proof.
  induction n as [|n IH]; intros c1 c2 s H.
  - reflexivity.
  - rewrite !mod_pow2_succ in H.
    assert (B1 : 0 <= c1 mod 2 < 2) by (apply Z.mod_pos_bound; lia).
    assert (B2 : 0 <= c2 mod 2 < 2) by (apply Z.mod_pos_bound; lia).
    assert (Hb : c1 mod 2 = c2 mod 2) by lia.
    assert (Hr : (c1 / 2) mod 2 ^ Z.of_nat n = (c2 / 2) mod 2 ^ Z.of_nat n) by lia.
    cbn [send_bits]. rewrite !land_1_mod, !shiftr_1_div, Hb.
    apply IH. exact Hr.
Qed.

(** C9: the transmitter looks at the low 12 bits of its argument only:
    two codes that agree modulo 4096 lead to the same state, hence to the
    same sequence of carrier-on and carrier-off intervals. *)
Theorem transmit_low_12_bits (c1 c2 : Z) (s : hw) :
  c1 mod 4096 = c2 mod 4096 ->
  transmit_sony_12bit_code c1 s = transmit_sony_12bit_code c2 s
  /\ emitted s (transmit_sony_12bit_code c1 s)
     = emitted s (transmit_sony_12bit_code c2 s).
Proof.
  intros H.
  assert (E : transmit_sony_12bit_code c1 s = transmit_sony_12bit_code c2 s).
  { unfold transmit_sony_12bit_code.
    rewrite (send_bits_low 12 c1 c2) by exact H. reflexivity. }
  rewrite E. split; reflexivity.
Qed.

Lemma transmit_low_12_bits_witness :
  149 mod 4096 = (149 + 4096) mod 4096
  /\ transmit_sony_12bit_code 149 ready_state
     = transmit_sony_12bit_code (149 + 4096) ready_state.
Proof.
  split.
  - reflexivity.
  - apply (transmit_low_12_bits 149 (149 + 4096) ready_state). reflexivity.
Defined.

Lemma transmit_emitted code s :
  sleep_enabled s ->
  emitted s (transmit_sony_12bit_code code s) = frame (timer0_clocked s) code.
Proof.
  intros He. apply emitted_app.
  destruct (transmit_spec code s He) as (T & _). exact T.
Qed.

Lemma decode_asked_frame code :
  sony12_decode (asked_wave (frame true code)) = Some (code mod 4096).
Proof.
  unfold asked_wave. apply decode_frame; try reflexivity. discriminate.
Qed.

Lemma decode_timer_frame code :
  sony12_decode (timer_wave (frame true code)) = Some (code mod 4096).
Proof.
  unfold timer_wave. apply decode_frame; try reflexivity. discriminate.
Qed.

(** C1: for every 12-bit code, the waveform [transmit_sony_12bit_code]
    puts on the line (header mark, twelve mark/space bits least
    significant first, quiet gap) is decoded by the reference Sony 12-bit
    receiver to that code; this holds with the durations the code asks
    for and with the durations Timer1 is programmed to at 1 MHz. *)
Theorem sony12_round_trip (c : Z) (s : hw) :
  0 <= c < 4096 ->
  sleep_enabled s ->
  timer0_clocked s = true ->
  sony12_decode (asked_wave (emitted s (transmit_sony_12bit_code c s))) = Some c
  /\ sony12_decode (timer_wave (emitted s (transmit_sony_12bit_code c s))) = Some c.
Proof.
  intros Hc He Hk. rewrite transmit_emitted by exact He. rewrite Hk.
  rewrite decode_asked_frame, decode_timer_frame.
  rewrite Z.mod_small by exact Hc. split; reflexivity.
Qed.

Lemma sony12_round_trip_witness :
  (0 <= 149 < 4096 /\ sleep_enabled ready_state /\ timer0_clocked ready_state = true)
  /\ sony12_decode (asked_wave (emitted ready_state (transmit_sony_12bit_code 149 ready_state)))
     = Some 149
  /\ sony12_decode (timer_wave (emitted ready_state (transmit_sony_12bit_code 149 ready_state)))
     = Some 149.
Proof.
  split.
  - split; [lia | split; reflexivity].
  - apply (sony12_round_trip 149 ready_state); [lia | reflexivity | reflexivity].
Defined.

Lemma bit_on_duration_testbit c :
  bit_on_duration c = if Z.testbit c 0 then 1200 else 600.
Proof.
  unfold bit_on_duration. rewrite land_1_mod, Z.bit0_odd, Zmod_odd.
  destruct (Z.odd c); reflexivity.
Qed.

Lemma asked_wave_bits n : forall c,
  asked_wave (bit_events true n c) = sony_bit_intervals n c.
Proof.
  induction n as [|n IH]; intros c.
  - reflexivity.
  - cbn [bit_events sony_bit_intervals]. rewrite <- IH, <- bit_on_duration_testbit.
    reflexivity.
Qed.

Lemma wave_app f l1 l2 : wave f (l1 ++ l2) = wave f l1 ++ wave f l2.
Proof. unfold wave. apply flat_map_app. Qed.

Lemma asked_wave_frame c :
  asked_wave (frame true c)
  = (true, 2400) :: (false, 600) :: sony_bit_intervals 12 c ++ [(false, 45 * 1000)].
Proof.
  unfold frame.
  change (asked_wave (slept_us HEADER_BIT_DURATION true
                      :: slept_us BIT_OFF_DURATION false
                      :: bit_events true 12 c ++ [slept_ms POST_DELAY_DURATION false]))
    with ((true, 2400) :: (false, 600)
          :: asked_wave (bit_events true 12 c ++ [slept_ms POST_DELAY_DURATION false])).
  unfold asked_wave at 1. rewrite wave_app. fold asked_wave.
  rewrite asked_wave_bits. reflexivity.
Qed.






(** What Timer1 is programmed to for the same frame at 1 MHz: the
    compare values are 150, 37, 75 and 10 ticks, so the 600 us intervals
    last 592 us on the timer and the closing delay 40960 us. *)
Remark programmed_durations_code0 :
  timer_wave (frame true 0)
  = (true, 2400) :: (false, 592)
    :: concat (repeat [(true, 592); (false, 592)] 12) ++ [(false, 40960)]
  /\ on_time (timer_wave (frame true 0)) = 9504
  /\ off_time (timer_wave (frame true 0)) = 7696 + 40960.
Proof. repeat split. Qed.

(** ** The command table and the resolver *)

Lemma command_defs_NoDup : NoDup (map pinmask command_defs).
Proof.
  simpl. repeat constructor; simpl; intuition discriminate.
Qed.

Lemma command_defs_codes :
  Forall (fun cmd => 0 <= code cmd < 4096) command_defs.
Proof. repeat constructor; simpl; lia. Qed.

(** C7: in the command table the pinmasks are pairwise distinct and
    nonzero, and every code fits in 12 bits: bits 12 to 15 are zero. *)
Theorem command_table_invariants :
  NoDup (map pinmask command_defs)
  /\ Forall (fun cmd => pinmask cmd <> 0) command_defs
  /\ Forall (fun cmd => 0 <= code cmd < 2 ^ 12) command_defs
  /\ Forall (fun cmd => Z.land (code cmd) 61440 = 0) command_defs.
Proof.
  split; [exact command_defs_NoDup|]. split; [|split].
  - repeat constructor; simpl; discriminate.
  - repeat constructor; simpl; lia.
  - repeat constructor.
Qed.

(** The scan stops at the first entry whose pinmask is the mask. *)
Lemma scan_commands_first pre cmd post buttons s :
  (forall c, In c pre -> pinmask c <> buttons) ->
  pinmask cmd = buttons ->
  scan_commands (pre ++ cmd :: post) buttons s
  = transmit_sony_12bit_code (code cmd) s.
Proof.
  intros Hpre Hcmd. induction pre as [|c pre IH]; simpl.
  - rewrite Hcmd, Z.eqb_refl. reflexivity.
  - destruct (Z.eqb_spec buttons (pinmask c)) as [E|E].
    + exfalso. apply (Hpre c); [left; reflexivity | congruence].
    + apply IH. intros c' Hc'. apply Hpre. right. exact Hc'.
Qed.

(** The scan falls through when no entry has the mask. *)
Lemma scan_commands_none cmds buttons s :
  (forall c, In c cmds -> pinmask c <> buttons) ->
  scan_commands cmds buttons s = idle_sleep_ms DEBOUNCE_DURATION s.
Proof.
  intros H. induction cmds as [|c cmds IH]; simpl.
  - reflexivity.
  - destruct (Z.eqb_spec buttons (pinmask c)) as [E|E].
    + exfalso. apply (H c); [left; reflexivity | congruence].
    + apply IH. intros c' Hc'. apply H. right. exact Hc'.
Qed.

Lemma NoDup_map_split {A B} (g : A -> B) (pre : list A) (x : A) (post : list A) :
  NoDup (map g (pre ++ x :: post)) ->
  forall y, In y pre -> g y <> g x.
Proof.
  rewrite map_app. simpl. intros H y Hy E.
  apply NoDup_remove_2 in H. apply H.
  apply in_or_app. left. rewrite <- E. apply in_map. exact Hy.
Qed.

Lemma resolve_entry cmd s :
  In cmd command_defs ->
  transmit_code_for_buttons (pinmask cmd) s
  = transmit_sony_12bit_code (code cmd) s.
Proof.
  intros Hin. unfold transmit_code_for_buttons.
  destruct (in_split _ _ Hin) as (pre & post & E).
  pose proof command_defs_NoDup as Hnd. rewrite E in Hnd |- *.
  apply scan_commands_first; [|reflexivity].
  apply (NoDup_map_split pinmask pre cmd post Hnd).
Qed.

(** C3: when the pressed mask is the pinmask of a table entry,
    [transmit_code_for_buttons] transmits that entry's code: it does what
    [transmit_sony_12bit_code] does for it, and the frame on the line
    decodes to it.  The match is on the whole mask: the chord 0b00001100
    sends the mute entry's code 148, a frame different from those of the
    single buttons 0b00000100 and 0b00001000. *)
Theorem resolver_exact_match (cmd : command_def) (s : hw) :
  In cmd command_defs ->
  sleep_enabled s ->
  timer0_clocked s = true ->
  transmit_code_for_buttons (pinmask cmd) s
  = transmit_sony_12bit_code (code cmd) s
  /\ sony12_decode (asked_wave (emitted s (transmit_code_for_buttons (pinmask cmd) s)))
     = Some (code cmd)
  /\ transmit_code_for_buttons 12 s = transmit_sony_12bit_code 148 s
  /\ sony12_decode (asked_wave (emitted s (transmit_code_for_buttons 12 s))) = Some 148
  /\ sony12_decode (asked_wave (emitted s (transmit_code_for_buttons 4 s))) = Some 146
  /\ sony12_decode (asked_wave (emitted s (transmit_code_for_buttons 8 s))) = Some 147
  /\ emitted s (transmit_code_for_buttons 12 s) <> emitted s (transmit_code_for_buttons 4 s)
  /\ emitted s (transmit_code_for_buttons 12 s) <> emitted s (transmit_code_for_buttons 8 s).
Proof.
  intros Hin He Hk.
  assert (D : forall c, 0 <= c < 4096 ->
            sony12_decode (asked_wave (emitted s (transmit_sony_12bit_code c s))) = Some c).
  { intros c Hc. rewrite transmit_emitted by exact He.
    rewrite Hk, decode_asked_frame, Z.mod_small by exact Hc. reflexivity. }
  assert (D12 : sony12_decode (asked_wave (emitted s (transmit_code_for_buttons 12 s))) = Some 148).
  { change (transmit_code_for_buttons 12 s) with (transmit_sony_12bit_code 148 s).
    apply D. lia. }
  assert (D4 : sony12_decode (asked_wave (emitted s (transmit_code_for_buttons 4 s))) = Some 146).
  { change (transmit_code_for_buttons 4 s) with (transmit_sony_12bit_code 146 s).
    apply D. lia. }
  assert (D8 : sony12_decode (asked_wave (emitted s (transmit_code_for_buttons 8 s))) = Some 147).
  { change (transmit_code_for_buttons 8 s) with (transmit_sony_12bit_code 147 s).
    apply D. lia. }
  split; [apply resolve_entry; exact Hin|].
  split.
  { rewrite resolve_entry by exact Hin. apply D.
    pose proof command_defs_codes as F. rewrite Forall_forall in F. apply F. exact Hin. }
  split; [reflexivity|].
  split; [exact D12|]. split; [exact D4|]. split; [exact D8|].
  split; intros E; rewrite E in D12; congruence.
Qed.

Lemma resolver_exact_match_witness :
  (In (mk_command 12 148) command_defs
   /\ sleep_enabled ready_state /\ timer0_clocked ready_state = true)
  /\ transmit_code_for_buttons 12 ready_state
     = transmit_sony_12bit_code 148 ready_state.
Proof.
  split.
  - split; [right; right; right; left; reflexivity | split; reflexivity].
  - apply (resolver_exact_match (mk_command 12 148) ready_state);
      [right; right; right; left; reflexivity | reflexivity | reflexivity].
Defined.

(** C5: when the pressed mask is the pinmask of no table entry,
    [transmit_code_for_buttons] does what one idle sleep of the debounce
    duration does and nothing else: the transmitter is not entered, and
    the only thing added to the trace is that one sleep, the line as it
    was. *)
Theorem unmapped_buttons_debounce (buttons : Z) (s : hw) :
  (forall cmd, In cmd command_defs -> pinmask cmd <> buttons) ->
  sleep_enabled s ->
  transmit_code_for_buttons buttons s = idle_sleep_ms DEBOUNCE_DURATION s
  /\ emitted s (transmit_code_for_buttons buttons s)
     = [slept_ms DEBOUNCE_DURATION (carrier s)]
  /\ carrier (transmit_code_for_buttons buttons s) = carrier s.
Proof.
  intros Hno He. unfold transmit_code_for_buttons.
  rewrite scan_commands_none by exact Hno.
  split; [reflexivity|]. split.
  - apply emitted_app. apply idle_sleep_ms_trace. exact He.
  - unfold idle_sleep_ms. rewrite idle_sleep_carrier. reflexivity.
Qed.

Lemma unmapped_buttons_debounce_witness :
  ((forall cmd, In cmd command_defs -> pinmask cmd <> 6)
   /\ sleep_enabled ready_state)
  /\ emitted ready_state (transmit_code_for_buttons 6 ready_state)
     = [slept_ms DEBOUNCE_DURATION false].
Proof.
  assert (H : forall cmd, In cmd command_defs -> pinmask cmd <> 6).
  { intros cmd Hin.
    repeat (destruct Hin as [<-|Hin]; [discriminate|]). destruct Hin. }
  split.
  - split; [exact H | reflexivity].
  - apply (unmapped_buttons_debounce 6 ready_state H). reflexivity.
Defined.

(** C4, as the code has it: pressing only the line with pinmask
    0b00000010 transmits the code 21 | (1<<7) = 149, and the twelve bits
    sent, least significant first, are 1,0,1,0,1,0,0,1,0,0,0,0. *)
Theorem power_button_bits (s : hw) :
  sleep_enabled s ->
  timer0_clocked s = true ->
  Z.lor 21 (Z.shiftl 1 7) = 149
  /\ transmit_code_for_buttons 2 s = transmit_sony_12bit_code 149 s
  /\ sent_bits (emitted s (transmit_code_for_buttons 2 s))
     = [1; 0; 1; 0; 1; 0; 0; 1; 0; 0; 0; 0]
  /\ lsb_first_value [1; 0; 1; 0; 1; 0; 0; 1; 0; 0; 0; 0] = 149.
Proof.
  intros He Hk. split; [reflexivity|]. split; [reflexivity|]. split; [|reflexivity].
  change (transmit_code_for_buttons 2 s) with (transmit_sony_12bit_code 149 s).
  rewrite transmit_emitted by exact He. rewrite Hk. reflexivity.
Qed.

Lemma power_button_bits_witness :
  (sleep_enabled ready_state /\ timer0_clocked ready_state = true)
  /\ sent_bits (emitted ready_state (transmit_code_for_buttons 2 ready_state))
     = [1; 0; 1; 0; 1; 0; 0; 1; 0; 0; 0; 0].
Proof.
  split.
  - split; reflexivity.
  - apply (power_button_bits ready_state); reflexivity.
Defined.

(** C4, as stated, fails: the bits sent for pinmask 0b00000010 are not
    1,0,1,0,1,0,0,1,0,1,0,0, which is the code 661 and not 149. *)
Lemma power_button_bits_not_as_stated :
  sent_bits (emitted ready_state (transmit_code_for_buttons 2 ready_state))
  <> [1; 0; 1; 0; 1; 0; 0; 1; 0; 1; 0; 0]
  /\ lsb_first_value [1; 0; 1; 0; 1; 0; 0; 1; 0; 1; 0; 0] = 661.
Proof.
  split; [|reflexivity].
  vm_compute. discriminate.
Qed.

(** ** Ranges of the idle sleeps *)

Lemma us_ticks_small us : 0 <= us <= 4294 -> us_ticks us = us / 16.
Proof.
  intros H. unfold us_ticks, u32, F_CPU.
  rewrite (Z.mod_small us) by lia.
  rewrite Z.mod_small by lia.
  change (16 * 1000000) with (1000000 * 16).
  apply Z.div_mul_cancel_l; lia.
Qed.

Lemma ms_ticks_small ms : 0 <= ms <= 4294 -> ms_ticks ms = 1000 * ms / 4096.
Proof.
  intros H. unfold ms_ticks, u32, F_CPU.
  rewrite (Z.mod_small ms) by lia.
  rewrite Z.mod_small by lia.
  change (4096 * 1000) with (1000 * 4096).
  replace (1000000 * ms) with (1000 * (1000 * ms)) by lia.
  apply Z.div_mul_cancel_l; lia.
Qed.

Lemma timer_us_16 t : timer_us t (u8 presc_us) = 16 * t.
Proof.
  unfold timer_us, F_CPU. change (2 ^ (u8 presc_us - 1)) with 16.
  replace (t * 16 * 1000000) with (16 * t * 1000000) by lia.
  apply Z.div_mul. lia.
Qed.

Lemma timer_us_4096 t : timer_us t (u8 presc_ms) = 4096 * t.
Proof.
  unfold timer_us, F_CPU. change (2 ^ (u8 presc_ms - 1)) with 4096.
  replace (t * 4096 * 1000000) with (4096 * t * 1000000) by lia.
  apply Z.div_mul. lia.
Qed.

(** C8: at the nominal 1 MHz clock [idle_sleep_us us] computes
    us * F_CPU / (16 * 10^6) ticks and [idle_sleep_ms ms]
    ms * F_CPU / (4096 * 1000) ticks, and puts them in the 8-bit compare
    register of Timer1.  One to 255 ticks of 16 us are 16 to 4080 us, and
    every request in that range gets such a count, within 16 us of the
    request; one to 255 ticks of 4096 us are 4096 to 1044480 us, about
    5 to 1045 ms, and every request of 5 to 1045 ms gets such a count. *)
Theorem idle_sleep_ranges (us ms t : Z) (s : hw) :
  16 <= us <= 4080 ->
  5 <= ms <= 1045 ->
  1 <= t <= 255 ->
  sleep_enabled s ->
  (* the microsecond variant *)
  (us_ticks us = us * F_CPU / (16 * 10 ^ 6)
   /\ 1 <= us_ticks us <= 255
   /\ emitted s (idle_sleep_us us s)
      = [Slept (Micros us) (us_ticks us) 5 (carrier s)]
   /\ timer_us (us_ticks us) 5 <= us < timer_us (us_ticks us) 5 + 16
   /\ 16 <= timer_us t 5 <= 4080
   /\ us_ticks 16 = 1 /\ timer_us 1 5 = 16
   /\ us_ticks 4080 = 255 /\ timer_us 255 5 = 4080
   /\ us_ticks 15 = 0 /\ u8 (us_ticks 4096) = 0)
  /\
  (* the millisecond variant *)
  (ms_ticks ms = ms * F_CPU / (4096 * 1000)
   /\ 1 <= ms_ticks ms <= 255
   /\ emitted s (idle_sleep_ms ms s)
      = [Slept (Millis ms) (ms_ticks ms) 13 (carrier s)]
   /\ 4096 <= timer_us t 13 <= 1044480
   /\ ms_ticks 4 = 0
   /\ ms_ticks 5 = 1 /\ timer_us 1 13 = 4096
   /\ ms_ticks 1045 = 255 /\ timer_us 255 13 = 1044480
   /\ u8 (ms_ticks 1049) = 0).
Proof.
  intros Hus Hms Ht He.
  assert (Eu : us_ticks us = us / 16) by (apply us_ticks_small; lia).
  assert (Em : ms_ticks ms = 1000 * ms / 4096) by (apply ms_ticks_small; lia).
  assert (Bu : 1 <= us / 16 <= 255).
  { split; [apply Z.div_le_lower_bound | apply Z.div_le_upper_bound]; lia. }
  assert (Bm : 1 <= 1000 * ms / 4096 <= 255).
  { split; [apply Z.div_le_lower_bound; lia|].
    apply Z.lt_succ_r. apply Z.div_lt_upper_bound; lia. }
  pose proof (timer_us_16 t) as T16. change (u8 presc_us) with 5 in T16.
  pose proof (timer_us_16 (us / 16)) as T16'. change (u8 presc_us) with 5 in T16'.
  pose proof (timer_us_4096 t) as T4096. change (u8 presc_ms) with 13 in T4096.
  split.
  - split.
    { rewrite Eu. unfold F_CPU. change (16 * 10 ^ 6) with (1000000 * 16).
      rewrite (Z.mul_comm us). symmetry. apply Z.div_mul_cancel_l; lia. }
    split; [rewrite Eu; exact Bu|].
    split.
    { apply emitted_app. rewrite idle_sleep_us_trace by exact He.
      unfold slept_us. rewrite Eu. unfold u8 at 1.
      rewrite Z.mod_small by lia. reflexivity. }
    split.
    { rewrite Eu, T16'. pose proof (Z.mod_pos_bound us 16 ltac:(lia)) as Hm.
      pose proof (Z.div_mod us 16 ltac:(lia)). lia. }
    split; [rewrite T16; lia|].
    repeat split.
  - split.
    { rewrite Em. unfold F_CPU. change (4096 * 1000) with (1000 * 4096).
      replace (ms * 1000000) with (1000 * (1000 * ms)) by lia.
      symmetry. apply Z.div_mul_cancel_l; lia. }
    split; [rewrite Em; exact Bm|].
    split.
    { apply emitted_app. rewrite idle_sleep_ms_trace by exact He.
      unfold slept_ms. rewrite Em. unfold u8 at 1.
      rewrite Z.mod_small by lia. reflexivity. }
    split; [rewrite T4096; lia|].
    repeat split.
Qed.

Lemma idle_sleep_ranges_witness :
  (16 <= 600 <= 4080 /\ 5 <= 45 <= 1045 /\ 1 <= 37 <= 255
   /\ sleep_enabled ready_state)
  /\ us_ticks 600 = 37
  /\ ms_ticks 45 = 10
  /\ emitted ready_state (idle_sleep_us 600 ready_state)
     = [Slept (Micros 600) 37 5 false].
Proof.
  destruct (idle_sleep_ranges 600 45 37 ready_state) as (U & M);
    [lia | lia | lia | reflexivity |].
  split.
  - repeat split; lia.
  - split; [reflexivity|]. split; [reflexivity|].
    destruct U as (_ & _ & E & _). exact E.
Defined.

(** ** The debounce state machine *)

Lemma power_down_spec s :
  sleep_enabled s ->
  let s' := power_down_and_wait_for_pin_change s in
  trace s' = trace s ++ [PoweredDown]
  /\ sleep_enabled s'
  /\ rd DDRB s' = 0
  /\ pins s' = pins s
  /\ reads s' = reads s.
Proof.
  intros He. unfold power_down_and_wait_for_pin_change.
  set (s3 := set_sleep_mode SLEEP_MODE_PWR_DOWN _).
  assert (E3 : Z.testbit (rd MCUCR s3) SE = true).
  { unfold s3. rewrite set_sleep_mode_enabled by reflexivity. rd_simpl. exact He. }
  assert (M3 : Z.land (rd MCUCR s3) (Z.lor (_BV SM0) (_BV SM1)) = SLEEP_MODE_PWR_DOWN).
  { unfold s3. apply set_sleep_mode_mode. reflexivity. }
  cbv zeta. rewrite sleep_cpu_pwr_down.
  - unfold PCINT0_vect, sei.
    split; [reflexivity|]. split; [|split; [|split; reflexivity]].
    + unfold sleep_enabled. rd_simpl. exact E3.
    + rd_simpl. unfold s3, set_sleep_mode. rd_simpl. reflexivity.
  - unfold sleep_enabled, sei. rd_simpl. exact E3.
  - unfold sei. rd_simpl. exact M3.
Qed.

Lemma pressed_bits input i :
  0 <= i ->
  Z.testbit (pressed input) i
  = negb (Z.testbit input i) && Z.testbit PORTB_BUTTON_PIN_MASK i.
Proof.
  intros Hi. unfold pressed. rewrite u8_land, !Z.land_spec, Z.lnot_spec by exact Hi.
  destruct (Z.testbit PORTB_BUTTON_PIN_MASK i) eqn:E.
  - replace (Z.testbit 255 i) with true; [rewrite !andb_true_r; reflexivity|].
    destruct (Z_lt_le_dec i 8) as [L|L].
    + assert (C : i = 0 \/ i = 1 \/ i = 2 \/ i = 3 \/ i = 4 \/ i = 5 \/ i = 6 \/ i = 7) by lia.
      destruct C as [->|[->|[->|[->|[->|[->|[->| ->]]]]]]]; reflexivity.
    + exfalso. change PORTB_BUTTON_PIN_MASK with (30 mod 2 ^ 8) in E.
      rewrite Z.mod_pow2_bits_high in E by lia. discriminate.
  - rewrite !andb_false_r. reflexivity.
Qed.

(** C6, as stated, fails: after a wake-up the first sample is treated
    as stable at once.  With the power button held (PINB = 0b00011100)
    the loop reaches its stable branch after one sample, and its next
    step sends the frame of code 149. *)
Lemma first_sample_accepted_unconfirmed :
  ~ two_sample_rule
  /\ trace (snd (main 2 (fun _ => 28)))
     = [PoweredDown; slept_ms DEBOUNCE_DURATION false; Sampled 28]
       ++ frame true 149 ++ [Sampled 28].
Proof.
  split; [|vm_compute; reflexivity].
  intros H.
  destruct (H (fun _ => 28) 1%nat 28 28 (snd (main 1 (fun _ => 28))))
    as (pre & k & E); [reflexivity | reflexivity |].
  change (trace (snd (main 1 (fun _ => 28))))
    with [PoweredDown; slept_ms DEBOUNCE_DURATION false; Sampled 28] in E.
  destruct pre as [|e1 pre]; [discriminate|].
  apply (f_equal (@length event)) in E. simpl in E.
  rewrite length_app in E. simpl in E. lia.
Qed.

(** C6, as the code has it.  The processing loop acts on a reading
    exactly when it equals the remembered one.  After a wake-up the loop
    sleeps one debounce interval, takes one sample and remembers it, so
    that sample is acted on without a second one.  A sample that differs
    from the remembered one is not acted on: it is remembered, the loop
    idle-sleeps one debounce interval and samples again, and nothing is
    transmitted.  A sample equal to the remembered one is acted on: with
    no button pressed the loop goes back to sleep, otherwise the pressed
    mask is resolved and the lines are sampled again, the remembered
    sample kept.  The pressed mask is the bitwise complement of the
    reading restricted to the button bits. *)
Theorem debounce_state_machine (input last_input : Z) (s : hw) :
  sleep_enabled s ->
  (* after a wake-up *)
  (let (c, s') := main_step Asleep s in
   let v := u8 (pins s (reads s)) in
   c = Processing v v
   /\ emitted s s' = [PoweredDown; slept_ms DEBOUNCE_DURATION false; Sampled v])
  /\
  (* a sample that differs from the remembered one *)
  (input <> last_input ->
   let (c, s') := main_step (Processing input last_input) s in
   let v := u8 (pins s (reads s)) in
   c = Processing v input
   /\ s' = snd (read_PINB (idle_sleep_ms DEBOUNCE_DURATION s))
   /\ emitted s s' = [slept_ms DEBOUNCE_DURATION (carrier s); Sampled v])
  /\
  (* a sample equal to the remembered one *)
  (input = last_input ->
   main_step (Processing input last_input) s
   = if pressed input =? 0 then (Asleep, s)
     else
       let after := transmit_code_for_buttons (pressed input) s in
       (Processing (fst (read_PINB after)) last_input, snd (read_PINB after)))
  /\
  (* the pressed mask *)
  (forall i, 0 <= i ->
     Z.testbit (pressed input) i
     = negb (Z.testbit input i) && Z.testbit PORTB_BUTTON_PIN_MASK i).
Proof.
  intros He. split; [|split; [|split]].
  - cbn [main_step]. unfold read_PINB. cbv zeta.
    destruct (power_down_spec s He) as (T1 & E1 & D1 & P1 & R1).
    set (s1 := power_down_and_wait_for_pin_change s) in *.
    pose proof (steady_idle_sleep_ms DEBOUNCE_DURATION s1) as (_ & _ & _ & _ & P2 & R2).
    rewrite P2, R2, P1, R1. split; [reflexivity|].
    apply emitted_app. cbn [trace].
    rewrite idle_sleep_ms_trace by exact E1. rewrite T1.
    assert (C1 : carrier s1 = false).
    { unfold carrier. rewrite D1. cbn. rewrite andb_false_r. reflexivity. }
    rewrite C1, <- !app_assoc. reflexivity.
  - intros Hne. cbn [main_step].
    destruct (Z.eqb_spec input last_input) as [E|_]; [contradiction|].
    unfold read_PINB. cbv zeta.
    pose proof (steady_idle_sleep_ms DEBOUNCE_DURATION s) as (_ & _ & _ & _ & P2 & R2).
    rewrite P2, R2. split; [reflexivity|]. split; [reflexivity|].
    apply emitted_app. cbn [trace snd].
    rewrite idle_sleep_ms_trace by exact He. rewrite <- app_assoc. reflexivity.
  - intros ->. cbn [main_step]. rewrite Z.eqb_refl. cbv zeta.
    destruct (pressed last_input =? 0); reflexivity.
  - intros i Hi. apply pressed_bits. exact Hi.
Qed.

Lemma debounce_state_machine_witness :
  (sleep_enabled ready_state /\ 28 <> 30)
  /\ fst (main_step (Processing 28 30) ready_state) = Processing 30 28
  /\ emitted ready_state (snd (main_step (Processing 28 30) ready_state))
     = [slept_ms DEBOUNCE_DURATION false; Sampled 30].
Proof.
  assert (N : 28 <> 30) by discriminate.
  destruct (debounce_state_machine 28 30 ready_state) as (_ & D & _);
    [reflexivity|].
  specialize (D N).
  split; [split; [reflexivity | exact N]|].
  destruct (main_step (Processing 28 30) ready_state) as [c s'].
  destruct D as (Dc & _ & Dt). split; [exact Dc | exact Dt].
Defined.

(** * Further properties of the firmware *)

(** ** The idle sleep *)

Lemma I_flag_wr r v s : I_flag (wr r v s) = I_flag s.
Proof. reflexivity. Qed.

Lemma sleep_cpu_idle_rd r s :
  Z.land (rd MCUCR s) (Z.lor (_BV SM0) (_BV SM1)) = SLEEP_MODE_IDLE ->
  match r with TIMSK | TCCR1 | TCNT1 => false | _ => true end = true ->
  rd r (sleep_cpu s) = rd r s.
Proof.
  intros Hm Hr. unfold sleep_cpu. rewrite Hm.
  change (SLEEP_MODE_IDLE =? SLEEP_MODE_PWR_DOWN) with false.
  change (SLEEP_MODE_IDLE =? SLEEP_MODE_IDLE) with true. cbv iota.
  destruct (Z.testbit (rd MCUCR s) SE); [|reflexivity].
  unfold TIMER1_COMPA_vect. destruct r; try discriminate; reflexivity.
Qed.

Lemma idle_sleep_untouched t p s : untouched sleep_owned s (idle_sleep t p s).
Proof.
  intros r Hr. unfold idle_sleep, power_timer1_disable.
  assert (Hm : Z.land (rd MCUCR (sei (wr TCCR1 p (wr TIMSK (_BV OCIE1A)
                 (wr OCR1A t (power_timer1_enable (set_sleep_mode SLEEP_MODE_IDLE s)))))))
                 (Z.lor (_BV SM0) (_BV SM1)) = SLEEP_MODE_IDLE).
  { unfold sei, power_timer1_enable. rd_simpl. apply set_sleep_mode_mode. reflexivity. }
  destruct r; try discriminate; rd_simpl;
    rewrite (sleep_cpu_idle_rd _ _ Hm) by reflexivity;
    unfold sei, power_timer1_enable, set_sleep_mode; rd_simpl; reflexivity.
Qed.

Lemma untouched_refl P s : untouched P s s.
Proof. intros r _. reflexivity. Qed.

Lemma untouched_trans P s1 s2 s3 :
  untouched P s1 s2 -> untouched P s2 s3 -> untouched P s1 s3.
Proof. intros H12 H23 r Hr. rewrite (H23 r Hr). apply H12. exact Hr. Qed.

Lemma untouched_weaken (P Q : reg -> bool) s s' :
  (forall r, Q r = false -> P r = false) -> untouched P s s' -> untouched Q s s'.
Proof. intros HPQ H r Hr. apply H. apply HPQ. exact Hr. Qed.

Lemma untouched_wr P r v s : P r = true -> untouched P s (wr r v s).
Proof.
  intros Hr r' Hr'. apply rd_wr_other.
  destruct r, r'; try reflexivity; congruence.
Qed.

(** What [idle_sleep] has done when it returns, sleep being enabled. *)
Lemma idle_sleep_result t p s :
  sleep_enabled s ->
  let s' := idle_sleep t p s in
  rd TIMSK s' = 0 /\ rd TCCR1 s' = 0 /\ rd TCNT1 s' = 0
  /\ rd OCR1A s' = u8 t
  /\ I_flag s' = false
  /\ rd PRR s' = u8 (Z.lor (u8 (Z.land (rd PRR s) (Z.lnot (_BV PRTIM1)))) (_BV PRTIM1))
  /\ Z.land (rd MCUCR s') (Z.lor (_BV SM0) (_BV SM1)) = SLEEP_MODE_IDLE.
Proof.
  intros He. unfold idle_sleep. rewrite sleep_cpu_idle.
  - unfold power_timer1_disable, TIMER1_COMPA_vect, sei, power_timer1_enable.
    cbv zeta. rd_simpl.
    split; [reflexivity|]. split; [reflexivity|]. split; [reflexivity|].
    split; [reflexivity|]. split; [reflexivity|]. split.
    + unfold set_sleep_mode. rd_simpl. reflexivity.
    + apply set_sleep_mode_mode. reflexivity.
  - unfold sleep_enabled, sei, power_timer1_enable. rd_simpl.
    rewrite set_sleep_mode_enabled by reflexivity. exact He.
  - unfold sei, power_timer1_enable. rd_simpl.
    apply set_sleep_mode_mode. reflexivity.
Qed.

(** X1: when [idle_sleep] returns, sleep being enabled, the processor has
    slept exactly once, with Timer1's compare register holding the low
    8 bits of [ticks] and its clock select those of [prescaler]; the
    timer interrupt is disabled again (TIMSK = 0), Timer1 is stopped,
    reset and without power, and the global interrupt flag is clear. *)
Theorem idle_sleep_returns_disarmed (ticks prescaler : Z) (s : hw) :
  sleep_enabled s ->
  let s' := idle_sleep ticks prescaler s in
  emitted s s' = [Slept (asked s) (u8 ticks) (u8 prescaler) (carrier s)]
  /\ rd TIMSK s' = 0
  /\ rd TCCR1 s' = 0
  /\ rd TCNT1 s' = 0
  /\ Z.testbit (rd PRR s') PRTIM1 = true
  /\ I_flag s' = false
  /\ sleep_enabled s'.
Proof.
  intros He s'.
  destruct (idle_sleep_result ticks prescaler s He) as (A & B & C & _ & F & P & _).
  fold s' in A, B, C, F, P.
  split; [apply emitted_app, idle_sleep_trace, He|].
  split; [exact A|]. split; [exact B|]. split; [exact C|].
  split; [|split; [exact F|]].
  - rewrite P. rewrite testbit_u8 by (unfold PRTIM1; lia). rewrite Z.lor_spec.
    change (Z.testbit (_BV PRTIM1) PRTIM1) with true. apply orb_true_r.
  - unfold sleep_enabled, s'. rewrite idle_sleep_enabled_bit. exact He.
Qed.

Lemma idle_sleep_returns_disarmed_witness :
  sleep_enabled ready_state
  /\ emitted ready_state (idle_sleep 300 5 ready_state) = [Slept (Micros 0) 44 5 false]
  /\ rd TIMSK (idle_sleep 300 5 ready_state) = 0.
Proof.
  split; [reflexivity|].
  destruct (idle_sleep_returns_disarmed 300 5 ready_state) as (E & T & _);
    [reflexivity|].
  split; [exact E | exact T].
Defined.

(** X2: whatever the state, [idle_sleep] writes no register but MCUCR,
    PRR, OCR1A, TIMSK, TCCR1 and TCNT1; of MCUCR and PRR it leaves the
    sleep enable and Timer0's power bit as they were; the carrier is on
    the line after it exactly if it was before, and no sample of the input
    lines is taken. *)
Theorem idle_sleep_leaves_alone (ticks prescaler : Z) (s : hw) :
  let s' := idle_sleep ticks prescaler s in
  untouched sleep_owned s s'
  /\ Z.testbit (rd MCUCR s') SE = Z.testbit (rd MCUCR s) SE
  /\ Z.testbit (rd PRR s') PRTIM0 = Z.testbit (rd PRR s) PRTIM0
  /\ carrier s' = carrier s
  /\ pins s' = pins s
  /\ reads s' = reads s.
Proof.
  intros s'. split; [apply idle_sleep_untouched|].
  split; [apply idle_sleep_enabled_bit|].
  split; [apply idle_sleep_timer0_power|].
  split; [apply idle_sleep_carrier|].
  split; [apply idle_sleep_pins | apply idle_sleep_reads].
Qed.

(** ** The deep sleep *)

Lemma power_down_untouched s :
  untouched power_down_owned s (power_down_and_wait_for_pin_change s).
Proof.
  intros r Hr. unfold power_down_and_wait_for_pin_change.
  set (s4 := sei _).
  assert (Hm : Z.land (rd MCUCR s4) (Z.lor (_BV SM0) (_BV SM1)) = SLEEP_MODE_PWR_DOWN).
  { unfold s4, sei. rd_simpl. apply set_sleep_mode_mode. reflexivity. }
  assert (H4 : rd r s4 = rd r s).
  { unfold s4, sei, set_sleep_mode. destruct r; try discriminate; rd_simpl; reflexivity. }
  rewrite <- H4. unfold sleep_cpu. rewrite Hm.
  change (SLEEP_MODE_PWR_DOWN =? SLEEP_MODE_PWR_DOWN) with true. cbv iota.
  destruct (Z.testbit (rd MCUCR s4) SE); [|reflexivity].
  unfold PCINT0_vect. destruct r; try discriminate; reflexivity.
Qed.

(** X3: when [power_down_and_wait_for_pin_change] returns, sleep being
    enabled, the processor has been in power-down once; every pin of
    port B is an input and the output bit of PORTB is clear, the pull-ups
    of the other pins as they were; the pin-change interrupt is disabled
    again (GIMSK = 0) and the global interrupt flag is clear; no other
    register is written and no sample is taken. *)
Theorem power_down_returns_disarmed (s : hw) :
  sleep_enabled s ->
  let s' := power_down_and_wait_for_pin_change s in
  emitted s s' = [PoweredDown]
  /\ rd DDRB s' = 0
  /\ Z.testbit (rd PORTB s') 0 = false
  /\ (forall i, 1 <= i < 8 -> Z.testbit (rd PORTB s') i = Z.testbit (rd PORTB s) i)
  /\ rd GIMSK s' = 0
  /\ I_flag s' = false
  /\ sleep_enabled s'
  /\ untouched power_down_owned s s'
  /\ reads s' = reads s.
Proof.
  intros He s'.
  destruct (power_down_spec s He) as (T & E & D & _ & R). fold s' in T, E, D, R.
  assert (Hs : s' = PCINT0_vect (emit PoweredDown
                 (sei (wr GIMSK (_BV PCIE) (set_sleep_mode SLEEP_MODE_PWR_DOWN
                   (wr DDRB 0 (wr PORTB (Z.land (rd PORTB s) (Z.lnot PORTB_OUTPUT_PIN_MASK)) s))))))).
  { unfold s', power_down_and_wait_for_pin_change. apply sleep_cpu_pwr_down.
    - unfold sleep_enabled, sei. rd_simpl.
      rewrite set_sleep_mode_enabled by reflexivity. rd_simpl. exact He.
    - unfold sei. rd_simpl. apply set_sleep_mode_mode. reflexivity. }
  assert (Pb : rd PORTB s' = u8 (Z.land (rd PORTB s) (Z.lnot PORTB_OUTPUT_PIN_MASK))).
  { rewrite Hs. unfold PCINT0_vect, sei, set_sleep_mode. rd_simpl. reflexivity. }
  split; [apply emitted_app; exact T|]. split; [exact D|].
  split.
  { rewrite Pb, testbit_u8, Z.land_spec by lia.
    change (Z.testbit (Z.lnot PORTB_OUTPUT_PIN_MASK) 0) with false. apply andb_false_r. }
  split.
  { intros i Hi. rewrite Pb, testbit_u8, Z.land_spec, Z.lnot_spec by lia.
    replace (Z.testbit PORTB_OUTPUT_PIN_MASK i) with false; [apply andb_true_r|].
    assert (C : i = 1 \/ i = 2 \/ i = 3 \/ i = 4 \/ i = 5 \/ i = 6 \/ i = 7) by lia.
    destruct C as [->|[->|[->|[->|[->|[->| ->]]]]]]; reflexivity. }
  split; [rewrite Hs; unfold PCINT0_vect; rd_simpl; reflexivity|].
  split; [rewrite Hs; reflexivity|].
  split; [exact E|]. split; [apply power_down_untouched | exact R].
Qed.

Lemma power_down_returns_disarmed_witness :
  sleep_enabled ready_state
  /\ emitted ready_state (power_down_and_wait_for_pin_change ready_state) = [PoweredDown]
  /\ rd GIMSK (power_down_and_wait_for_pin_change ready_state) = 0.
Proof.
  split; [reflexivity|].
  destruct (power_down_returns_disarmed ready_state) as (E & _ & _ & _ & G & _);
    [reflexivity|].
  split; [exact E | exact G].
Defined.

(** ** Initialisation *)

(** X4: from any state, the code of [main] before its loop enables
    sleep, configures Timer0 for the carrier (toggle on compare match,
    clear on compare, compare value F_CPU / (2 * 40000) = 12, clock
    running), disables the analog comparator, takes the power from both
    timers, the USI and the ADC, makes every pin an input and puts
    pull-ups and the pin-change mask on the four button lines; it leaves
    no carrier on the line, and neither sleeps nor samples. *)
Theorem main_init_establishes (s : hw) :
  let s' := main_init s in
  sleep_enabled s'
  /\ timer0_clocked s' = true
  /\ rd TCCR0A s' = ir_enabled
  /\ rd OCR0A s' = 12
  /\ Z.testbit (rd ACSR s') ACD = true
  /\ (Z.testbit (rd PRR s') PRADC = true /\ Z.testbit (rd PRR s') PRUSI = true
      /\ Z.testbit (rd PRR s') PRTIM0 = true /\ Z.testbit (rd PRR s') PRTIM1 = true)
  /\ rd DDRB s' = 0
  /\ rd PORTB s' = PORTB_BUTTON_PIN_MASK
  /\ rd PCMSK s' = PORTB_BUTTON_PIN_MASK
  /\ carrier s' = false
  /\ trace s' = trace s
  /\ reads s' = reads s.
Proof.
  intros s'.
  assert (Prr : rd PRR s'
                = u8 (Z.lor (rd PRR s)
                        (Z.lor (_BV PRADC) (Z.lor (_BV PRTIM0) (Z.lor (_BV PRTIM1) (_BV PRUSI)))))).
  { unfold s', main_init, sleep_enable, power_all_disable. rd_simpl. reflexivity. }
  assert (D : rd DDRB s' = 0).
  { unfold s', main_init, sleep_enable, power_all_disable. rd_simpl. reflexivity. }
  split.
  { unfold sleep_enabled, s', main_init, sleep_enable. rd_simpl.
    rewrite testbit_u8 by (unfold SE; lia). rewrite Z.lor_spec.
    change (Z.testbit (_BV SE) SE) with true. apply orb_true_r. }
  split.
  { unfold timer0_clocked, s', main_init, sleep_enable, power_all_disable.
    rd_simpl. reflexivity. }
  split.
  { unfold s', main_init, sleep_enable, power_all_disable. rd_simpl. reflexivity. }
  split.
  { unfold s', main_init, sleep_enable, power_all_disable. rd_simpl. reflexivity. }
  split.
  { unfold s', main_init, sleep_enable, power_all_disable. rd_simpl.
    rewrite testbit_u8 by (unfold ACD; lia). rewrite Z.lor_spec.
    change (Z.testbit (_BV ACD) ACD) with true. apply orb_true_r. }
  split.
  { rewrite Prr. repeat split;
      (rewrite testbit_u8 by (cbv; split; congruence));
      rewrite Z.lor_spec; apply orb_true_r. }
  split; [exact D|].
  split.
  { unfold s', main_init, sleep_enable, power_all_disable. rd_simpl. reflexivity. }
  split.
  { unfold s', main_init, sleep_enable, power_all_disable. rd_simpl. reflexivity. }
  split.
  { unfold carrier. rewrite D. cbn [Z.testbit]. rewrite andb_false_r. reflexivity. }
  split; reflexivity.
Qed.

(** ** The device at rest *)

Lemma at_rest_reset p : at_rest (main_init (reset_state p)).
Proof. repeat split. Qed.

Lemma at_rest_no_carrier s : at_rest s -> carrier s = false.
Proof.
  intros (_ & _ & _ & _ & _ & D & _). unfold carrier. rewrite D.
  cbn [Z.testbit]. rewrite andb_false_r. reflexivity.
Qed.

Lemma at_rest_clocked s : at_rest s -> timer0_clocked s = true.
Proof. intros (_ & B & _). unfold timer0_clocked. rewrite B. reflexivity. Qed.

Lemma at_rest_enabled s : at_rest s -> sleep_enabled s.
Proof. intros (E & _). exact E. Qed.

Lemma idle_sleep_PRR t p s :
  rd PRR (idle_sleep t p s)
  = u8 (Z.lor (u8 (Z.land (rd PRR s) (Z.lnot (_BV PRTIM1)))) (_BV PRTIM1)).
Proof.
  unfold idle_sleep, power_timer1_disable, power_timer1_enable, sei.
  rd_simpl. rewrite sleep_cpu_rd by reflexivity. rd_simpl.
  unfold set_sleep_mode. rd_simpl. reflexivity.
Qed.

Lemma at_rest_idle_sleep t p s : at_rest s -> at_rest (idle_sleep t p s).
Proof.
  intros (E & B & O & A & P & D & Pb & Pc & G & _).
  destruct (idle_sleep_result t p s E) as (T1 & T2 & _ & _ & F & _).
  pose proof (idle_sleep_untouched t p s) as U.
  unfold at_rest.
  rewrite (U TCCR0B eq_refl), (U OCR0A eq_refl), (U ACSR eq_refl), (U DDRB eq_refl),
    (U PORTB eq_refl), (U PCMSK eq_refl), (U GIMSK eq_refl), idle_sleep_PRR, P.
  unfold sleep_enabled. rewrite idle_sleep_enabled_bit.
  repeat split; assumption.
Qed.

Lemma at_rest_idle_sleep_ms ms s : at_rest s -> at_rest (idle_sleep_ms ms s).
Proof. intros H. unfold idle_sleep_ms. apply at_rest_idle_sleep. exact H. Qed.

Lemma power_down_unfold s :
  sleep_enabled s ->
  power_down_and_wait_for_pin_change s
  = PCINT0_vect (emit PoweredDown
      (sei (wr GIMSK (_BV PCIE) (set_sleep_mode SLEEP_MODE_PWR_DOWN
        (wr DDRB 0 (wr PORTB (Z.land (rd PORTB s) (Z.lnot PORTB_OUTPUT_PIN_MASK)) s)))))).
Proof.
  intros He. unfold power_down_and_wait_for_pin_change. apply sleep_cpu_pwr_down.
  - unfold sleep_enabled, sei. rd_simpl.
    rewrite set_sleep_mode_enabled by reflexivity. rd_simpl. exact He.
  - unfold sei. rd_simpl. apply set_sleep_mode_mode. reflexivity.
Qed.

Lemma at_rest_power_down s :
  at_rest s -> at_rest (power_down_and_wait_for_pin_change s).
Proof.
  intros (E & B & O & A & P & D & Pb & Pc & G & T & T1 & F).
  destruct (power_down_spec s E) as (_ & E' & D' & _).
  pose proof (power_down_untouched s) as U.
  unfold at_rest.
  rewrite (U TCCR0B eq_refl), (U OCR0A eq_refl), (U ACSR eq_refl), (U PRR eq_refl),
    (U PCMSK eq_refl), (U TIMSK eq_refl), (U TCCR1 eq_refl).
  split; [exact E'|]. split; [exact B|]. split; [exact O|]. split; [exact A|].
  split; [exact P|]. split; [exact D'|].
  rewrite (power_down_unfold s E). unfold PCINT0_vect, sei, set_sleep_mode.
  rd_simpl. rewrite Pb.
  repeat split; assumption.
Qed.

(** ** What a transmission leaves alone *)

Lemma sleep_owned_transmit_owned r : transmit_owned r = false -> sleep_owned r = false.
Proof. destruct r; simpl; congruence. Qed.

Lemma idle_sleep_us_untouched us s : untouched transmit_owned s (idle_sleep_us us s).
Proof.
  apply (untouched_weaken sleep_owned); [exact sleep_owned_transmit_owned|].
  unfold idle_sleep_us. apply (idle_sleep_untouched _ _ (note (Micros us) s)).
Qed.

Lemma idle_sleep_ms_untouched ms s : untouched transmit_owned s (idle_sleep_ms ms s).
Proof.
  apply (untouched_weaken sleep_owned); [exact sleep_owned_transmit_owned|].
  unfold idle_sleep_ms. apply (idle_sleep_untouched _ _ (note (Millis ms) s)).
Qed.

Lemma send_bits_untouched n : forall code s,
  untouched transmit_owned s (send_bits n code s).
Proof.
  induction n as [|n IH]; intros code s.
  - apply untouched_refl.
  - cbn [send_bits]. cbv zeta.
    eapply untouched_trans; [|apply IH].
    eapply untouched_trans; [|apply idle_sleep_us_untouched].
    eapply untouched_trans; [|apply (untouched_wr transmit_owned TCCR0A); reflexivity].
    eapply untouched_trans; [apply (untouched_wr transmit_owned TCCR0A ir_enabled); reflexivity|].
    destruct (Z.land code 1 =? 0); apply idle_sleep_us_untouched.
Qed.

Lemma before_post_delay_untouched code s :
  untouched transmit_owned s (before_post_delay code s).
Proof.
  unfold before_post_delay, power_timer0_disable, power_timer0_enable. cbv zeta.
  eapply untouched_trans; [|apply (untouched_wr transmit_owned PRR); reflexivity].
  eapply untouched_trans; [|apply (untouched_wr transmit_owned DDRB); reflexivity].
  eapply untouched_trans; [|apply send_bits_untouched].
  eapply untouched_trans; [|apply idle_sleep_us_untouched].
  eapply untouched_trans; [|apply (untouched_wr transmit_owned TCCR0A); reflexivity].
  eapply untouched_trans; [|apply idle_sleep_us_untouched].
  eapply untouched_trans; [|apply (untouched_wr transmit_owned DDRB); reflexivity].
  eapply untouched_trans; [|apply (untouched_wr transmit_owned TCCR0A); reflexivity].
  apply (untouched_wr transmit_owned PRR). reflexivity.
Qed.

Lemma transmit_untouched code s :
  untouched transmit_owned s (transmit_sony_12bit_code code s).
Proof.
  rewrite transmit_post_delay.
  eapply untouched_trans; [apply before_post_delay_untouched|].
  apply idle_sleep_ms_untouched.
Qed.

Lemma idle_sleep_us_PRR us s :
  rd PRR s = 11 -> rd PRR (idle_sleep_us us s) = 11.
Proof.
  intros H. unfold idle_sleep_us. rewrite idle_sleep_PRR, rd_note, H. reflexivity.
Qed.

Lemma send_bits_PRR n : forall code s,
  rd PRR s = 11 -> rd PRR (send_bits n code s) = 11.
Proof.
  induction n as [|n IH]; intros code s H.
  - exact H.
  - cbn [send_bits]. apply IH. apply idle_sleep_us_PRR. rd_simpl.
    destruct (Z.land code 1 =? 0); apply idle_sleep_us_PRR; rd_simpl; exact H.
Qed.

Lemma before_post_delay_PRR code s :
  rd PRR s = 15 -> rd PRR (before_post_delay code s) = 15.
Proof.
  intros H. unfold before_post_delay, power_timer0_disable. rd_simpl.
  rewrite send_bits_PRR; [reflexivity|].
  apply idle_sleep_us_PRR. rd_simpl. apply idle_sleep_us_PRR. rd_simpl.
  unfold power_timer0_enable. rd_simpl. rewrite H. reflexivity.
Qed.

Lemma before_post_delay_enabled code s :
  sleep_enabled s -> sleep_enabled (before_post_delay code s).
Proof.
  intros He. destruct (transmit_spec code s He) as (_ & _ & _ & _ & E & _).
  unfold sleep_enabled in E. rewrite transmit_post_delay in E.
  unfold idle_sleep_ms in E. rewrite idle_sleep_enabled_bit, rd_note in E. exact E.
Qed.

Lemma at_rest_idle_sleep_from t p s :
  sleep_enabled s ->
  rd TCCR0B s = _BV CS00 ->
  rd OCR0A s = F_CPU / (2 * IR_CARRIER_FREQ) ->
  rd ACSR s = _BV ACD ->
  rd PRR s = 15 ->
  rd DDRB s = 0 ->
  rd PORTB s = PORTB_BUTTON_PIN_MASK ->
  rd PCMSK s = PORTB_BUTTON_PIN_MASK ->
  rd GIMSK s = 0 ->
  at_rest (idle_sleep t p s).
Proof.
  intros E B O A P D Pb Pc G.
  destruct (idle_sleep_result t p s E) as (T1 & T2 & _ & _ & F & _).
  pose proof (idle_sleep_untouched t p s) as U.
  unfold at_rest.
  rewrite (U TCCR0B eq_refl), (U OCR0A eq_refl), (U ACSR eq_refl), (U DDRB eq_refl),
    (U PORTB eq_refl), (U PCMSK eq_refl), (U GIMSK eq_refl), idle_sleep_PRR, P.
  unfold sleep_enabled. rewrite idle_sleep_enabled_bit.
  repeat split; assumption.
Qed.

Lemma at_rest_idle_sleep_ms_from ms s :
  sleep_enabled s ->
  rd TCCR0B s = _BV CS00 ->
  rd OCR0A s = F_CPU / (2 * IR_CARRIER_FREQ) ->
  rd ACSR s = _BV ACD ->
  rd PRR s = 15 ->
  rd DDRB s = 0 ->
  rd PORTB s = PORTB_BUTTON_PIN_MASK ->
  rd PCMSK s = PORTB_BUTTON_PIN_MASK ->
  rd GIMSK s = 0 ->
  at_rest (idle_sleep_ms ms s).
Proof.
  intros E B O A P D Pb Pc G. unfold idle_sleep_ms.
  apply at_rest_idle_sleep_from; assumption.
Qed.

Lemma at_rest_transmit code s :
  at_rest s -> at_rest (transmit_sony_12bit_code code s).
Proof.
  intros (E & B & O & A & P & D & Pb & Pc & G & _).
  rewrite transmit_post_delay.
  pose proof (before_post_delay_untouched code s) as U.
  destruct (before_post_delay_regs code s) as (_ & D' & _).
  apply at_rest_idle_sleep_ms_from.
  - apply (before_post_delay_enabled code s E).
  - rewrite (U TCCR0B eq_refl). exact B.
  - rewrite (U OCR0A eq_refl). exact O.
  - rewrite (U ACSR eq_refl). exact A.
  - apply before_post_delay_PRR. exact P.
  - exact D'.
  - rewrite (U PORTB eq_refl). exact Pb.
  - rewrite (U PCMSK eq_refl). exact Pc.
  - rewrite (U GIMSK eq_refl). exact G.
Qed.

(** X5: whatever the code and the state, [transmit_sony_12bit_code]
    writes no register but TCCR0A, DDRB, PRR and those of the idle sleep
    (MCUCR, OCR1A, TIMSK, TCCR1, TCNT1): the pull-ups in PORTB, the
    pin-change mask and enable, the comparator and Timer0's clock and
    compare value are as they were.  Started with everything off, it
    returns with everything off again. *)
Theorem transmit_restores_rest (code : Z) (s : hw) :
  untouched transmit_owned s (transmit_sony_12bit_code code s)
  /\ (at_rest s -> at_rest (transmit_sony_12bit_code code s)).
Proof.
  split; [apply transmit_untouched | apply at_rest_transmit].
Qed.

Lemma transmit_restores_rest_witness :
  at_rest ready_state
  /\ at_rest (transmit_sony_12bit_code 149 ready_state)
  /\ rd PORTB (transmit_sony_12bit_code 149 ready_state) = rd PORTB ready_state.
Proof.
  assert (H : at_rest ready_state) by (repeat split).
  destruct (transmit_restores_rest 149 ready_state) as (U & R).
  split; [exact H|]. split; [exact (R H) | exact (U PORTB eq_refl)].
Defined.

(** ** One pass of the main loop *)

Lemma scan_commands_cases cmds buttons s :
  (exists cmd, In cmd cmds /\ pinmask cmd = buttons
               /\ scan_commands cmds buttons s = transmit_sony_12bit_code (code cmd) s)
  \/ ((forall c, In c cmds -> pinmask c <> buttons)
      /\ scan_commands cmds buttons s = idle_sleep_ms DEBOUNCE_DURATION s).
Proof.
  induction cmds as [|c cmds IH]; simpl.
  - right. split; [intros c []|reflexivity].
  - destruct (Z.eqb_spec buttons (pinmask c)) as [E|E].
    + left. exists c. auto.
    + destruct IH as [(cmd & Hin & Hp & Hs)|(Hno & Hs)].
      * left. exists cmd. auto.
      * right. split; [|exact Hs].
        intros c' [<-|Hc']; [congruence | apply Hno; exact Hc'].
Qed.

Lemma snd_pair {A B} (a : A) (b : B) : snd (a, b) = b.
Proof. reflexivity. Qed.

Lemma fst_pair {A B} (a : A) (b : B) : fst (a, b) = a.
Proof. reflexivity. Qed.

Lemma at_rest_read s : at_rest s -> at_rest (snd (read_PINB s)).
Proof. intros H. exact H. Qed.

Lemma trace_read s :
  trace (snd (read_PINB s)) = trace s ++ [Sampled (fst (read_PINB s))].
Proof. reflexivity. Qed.

Lemma pins_read s : pins (snd (read_PINB s)) = pins s.
Proof. reflexivity. Qed.

Lemma reads_read s : reads (snd (read_PINB s)) = S (reads s).
Proof. reflexivity. Qed.

Lemma fst_read s : fst (read_PINB s) = u8 (pins s (reads s)).
Proof. reflexivity. Qed.

Lemma idle_sleep_ms_pins ms s : pins (idle_sleep_ms ms s) = pins s.
Proof. unfold idle_sleep_ms. rewrite idle_sleep_pins. reflexivity. Qed.

Lemma idle_sleep_ms_reads ms s : reads (idle_sleep_ms ms s) = reads s.
Proof. unfold idle_sleep_ms. rewrite idle_sleep_reads. reflexivity. Qed.

(** What [transmit_code_for_buttons] does to a device at rest. *)
Lemma resolve_at_rest buttons s :
  at_rest s ->
  let s' := transmit_code_for_buttons buttons s in
  at_rest s' /\ pins s' = pins s /\ reads s' = reads s
  /\ (trace s' = trace s ++ [slept_ms DEBOUNCE_DURATION false]
      \/ exists cmd, In cmd command_defs /\ pinmask cmd = buttons
                     /\ trace s' = trace s ++ frame true (code cmd)).
Proof.
  intros H s'. pose proof (at_rest_enabled s H) as E. unfold s', transmit_code_for_buttons.
  destruct (scan_commands_cases command_defs buttons s) as [(cmd & Hin & Hp & ->)|(_ & ->)].
  - destruct (transmit_spec (code cmd) s E) as (T & _ & _ & _ & _ & _ & P & R).
    split; [apply at_rest_transmit; exact H|]. split; [exact P|]. split; [exact R|].
    right. exists cmd. rewrite T, (at_rest_clocked s H). auto.
  - split; [apply at_rest_idle_sleep_ms; exact H|].
    split; [apply idle_sleep_ms_pins|]. split; [apply idle_sleep_ms_reads|].
    left. rewrite idle_sleep_ms_trace by exact E.
    rewrite (at_rest_no_carrier s H). reflexivity.
Qed.

Lemma main_step_Asleep s :
  main_step Asleep s
  = (Processing (fst (read_PINB (idle_sleep_ms DEBOUNCE_DURATION
                                   (power_down_and_wait_for_pin_change s))))
                (fst (read_PINB (idle_sleep_ms DEBOUNCE_DURATION
                                   (power_down_and_wait_for_pin_change s)))),
     snd (read_PINB (idle_sleep_ms DEBOUNCE_DURATION
                       (power_down_and_wait_for_pin_change s)))).
Proof. cbn [main_step]. unfold read_PINB. cbv zeta. cbn [fst snd]. reflexivity. Qed.

Lemma main_step_unstable input last_input s :
  input <> last_input ->
  main_step (Processing input last_input) s
  = (Processing (fst (read_PINB (idle_sleep_ms DEBOUNCE_DURATION s))) input,
     snd (read_PINB (idle_sleep_ms DEBOUNCE_DURATION s))).
Proof.
  intros Hne. cbn [main_step].
  destruct (Z.eqb_spec input last_input) as [E|_]; [contradiction|].
  unfold read_PINB. cbv zeta. cbn [fst snd]. reflexivity.
Qed.

Lemma main_step_stable input s :
  main_step (Processing input input) s
  = if pressed input =? 0 then (Asleep, s)
    else (Processing (fst (read_PINB (transmit_code_for_buttons (pressed input) s))) input,
          snd (read_PINB (transmit_code_for_buttons (pressed input) s))).
Proof.
  cbn [main_step]. rewrite Z.eqb_refl. cbv zeta.
  destruct (pressed input =? 0); [reflexivity|].
  unfold read_PINB. cbv zeta. cbn [fst snd]. reflexivity.
Qed.

(** The state in which [main] takes its first sample after a wake-up. *)
Lemma wake_at_rest s s2 :
  at_rest s ->
  s2 = idle_sleep_ms DEBOUNCE_DURATION (power_down_and_wait_for_pin_change s) ->
  at_rest s2 /\ pins s2 = pins s /\ reads s2 = reads s
  /\ trace s2 = trace s ++ [PoweredDown; slept_ms DEBOUNCE_DURATION false].
Proof.
  intros H ->.
  set (s2 := idle_sleep_ms DEBOUNCE_DURATION (power_down_and_wait_for_pin_change s)).
  pose proof (at_rest_enabled s H) as E.
  pose proof (at_rest_power_down s H) as H1.
  destruct (power_down_spec s E) as (T1 & E1 & _ & P1 & R1).
  split; [apply at_rest_idle_sleep_ms; exact H1|].
  split; [unfold s2; rewrite idle_sleep_ms_pins; exact P1|].
  split; [unfold s2; rewrite idle_sleep_ms_reads; exact R1|].
  unfold s2. rewrite idle_sleep_ms_trace by exact E1.
  rewrite (at_rest_no_carrier _ H1), T1, <- app_assoc. reflexivity.
Qed.

Lemma wait_at_rest s s1 :
  at_rest s ->
  s1 = idle_sleep_ms DEBOUNCE_DURATION s ->
  at_rest s1 /\ pins s1 = pins s /\ reads s1 = reads s
  /\ trace s1 = trace s ++ [slept_ms DEBOUNCE_DURATION false].
Proof.
  intros H ->. set (s1 := idle_sleep_ms DEBOUNCE_DURATION s).
  pose proof (at_rest_enabled s H) as E.
  split; [apply at_rest_idle_sleep_ms; exact H|].
  split; [apply idle_sleep_ms_pins|]. split; [apply idle_sleep_ms_reads|].
  unfold s1. rewrite idle_sleep_ms_trace by exact E.
  rewrite (at_rest_no_carrier s H). reflexivity.
Qed.

(** What a pass adds to the trace: nothing, or a segment. *)
Lemma read_segment s0 s l :
  at_rest s -> pins s = pins s0 -> trace s = trace s0 ++ l ->
  (forall v, segment (l ++ [Sampled v])) ->
  at_rest (snd (read_PINB s))
  /\ pins (snd (read_PINB s)) = pins s0
  /\ (trace (snd (read_PINB s)) = trace s0
      \/ exists seg, segment seg /\ trace (snd (read_PINB s)) = trace s0 ++ seg).
Proof.
  intros H P T Hseg. split; [apply at_rest_read; exact H|].
  split; [rewrite pins_read; exact P|].
  right. exists (l ++ [Sampled (fst (read_PINB s))]). split; [apply Hseg|].
  rewrite trace_read, T, <- app_assoc. reflexivity.
Qed.

(** A pass of [main] from a device at rest. *)
Lemma main_step_at_rest c s :
  at_rest s ->
  at_rest (snd (main_step c s))
  /\ pins (snd (main_step c s)) = pins s
  /\ (trace (snd (main_step c s)) = trace s
      \/ exists seg, segment seg /\ trace (snd (main_step c s)) = trace s ++ seg).
Proof.
  intros H. destruct c as [|input last_input].
  - rewrite main_step_Asleep, snd_pair.
    destruct (wake_at_rest s _ H eq_refl) as (H2 & P2 & _ & T2).
    apply (read_segment s _ _ H2 P2 T2). intros v. apply seg_wake.
  - destruct (Z.eq_dec input last_input) as [<-|Hne].
    + rewrite main_step_stable. destruct (pressed input =? 0); rewrite snd_pair.
      * split; [exact H|]. split; [reflexivity|]. left. reflexivity.
      * pose proof (resolve_at_rest (pressed input) s H) as R. cbv zeta in R.
        destruct R as (H' & P & _ & T).
        destruct T as [T|(cmd & Hin & _ & T)].
        -- apply (read_segment s _ _ H' P T). intros v. apply seg_wait.
        -- apply (read_segment s _ _ H' P T). intros v. apply seg_frame. exact Hin.
    + rewrite main_step_unstable by exact Hne. rewrite snd_pair.
      destruct (wait_at_rest s _ H eq_refl) as (H1 & P1 & _ & T1).
      apply (read_segment s _ _ H1 P1 T1). intros v. apply seg_wait.
Qed.

Lemma main_run_at_rest n : forall c s,
  at_rest s ->
  main_trace (trace s) ->
  at_rest (snd (main_run n c s)) /\ main_trace (trace (snd (main_run n c s))).
Proof.
  induction n as [|n IH]; intros c s H Ht.
  - simpl. auto.
  - cbn [main_run].
    destruct (main_step_at_rest c s H) as (H' & _ & T').
    destruct (main_step c s) as [c' s']. cbn [snd] in H', T'.
    apply IH; [exact H'|].
    destruct T' as [-> | (seg & Hseg & ->)]; [exact Ht|].
    apply main_trace_snoc; assumption.
Qed.

(** X6: after any number of passes of its loops, [main] has the device
    at rest: sleep enabled, Timer0 configured but without power like
    Timer1, the USI and the ADC, the comparator off, every pin of port B
    an input with the pull-ups and the pin-change mask on the button
    lines, no interrupt enabled, the interrupt flag clear, and no carrier
    on the line. *)
Theorem main_keeps_rest (n : nat) (p : nat -> Z) :
  at_rest (snd (main n p)) /\ carrier (snd (main n p)) = false.
Proof.
  assert (H : at_rest (snd (main n p))).
  { unfold main. apply main_run_at_rest; [apply at_rest_reset | constructor]. }
  split; [exact H | apply at_rest_no_carrier; exact H].
Qed.

(** X7: whatever the input lines do, the trace of [main] is a sequence
    of wake-ups (power-down, debounce sleep, sample), waits (debounce
    sleep, sample) and complete frames of codes of the command table
    (each followed by a sample): the carrier is never on outside such a
    frame, no other code is ever sent, and no sample is taken without a
    sleep before it. *)
Theorem main_emits_table_frames (n : nat) (p : nat -> Z) :
  main_trace (trace (snd (main n p))).
Proof.
  unfold main. apply main_run_at_rest; [apply at_rest_reset | constructor].
Qed.

(** ** The length of a frame *)

Lemma on_time_app w1 w2 : on_time (w1 ++ w2) = on_time w1 + on_time w2.
Proof.
  induction w1 as [|[k d] w1 IH]; simpl; [reflexivity|].
  unfold on_time in *. simpl. rewrite IH. destruct k; lia.
Qed.

Lemma off_time_app w1 w2 : off_time (w1 ++ w2) = off_time w1 + off_time w2.
Proof.
  induction w1 as [|[k d] w1 IH]; simpl; [reflexivity|].
  unfold off_time in *. simpl. rewrite IH. destruct k; lia.
Qed.

Lemma ones_bounds n : forall c, 0 <= ones n c <= Z.of_nat n.
Proof.
  induction n as [|n IH]; intros c.
  - simpl. lia.
  - cbn [ones]. specialize (IH (Z.shiftr c 1)).
    rewrite Nat2Z.inj_succ. destruct (Z.testbit c 0); lia.
Qed.

Lemma sony_bit_intervals_time n : forall c,
  on_time (sony_bit_intervals n c) = 600 * Z.of_nat n + 600 * ones n c
  /\ off_time (sony_bit_intervals n c) = 600 * Z.of_nat n
  /\ length (sony_bit_intervals n c) = (2 * n)%nat.
Proof.
  induction n as [|n IH]; intros c.
  - repeat split.
  - destruct (IH (Z.shiftr c 1)) as (On & Off & Len).
    cbn [sony_bit_intervals ones]. rewrite Nat2Z.inj_succ.
    unfold on_time, off_time in *. cbn [fold_right fst snd length].
    rewrite On, Off, Len. destruct (Z.testbit c 0); repeat split; lia.
Qed.

(** X8: for every code, a frame is 27 intervals; the carrier is asked on
    for 9600 us plus 600 us for each one among the twelve bits sent, so
    for 9600 to 16800 us, and off for 7800 us within the frame and
    45000 us after it: from the start of one frame to where the next may
    start, 62400 to 69600 us are asked for. *)
Theorem frame_length (c : Z) (s : hw) :
  sleep_enabled s ->
  timer0_clocked s = true ->
  let w := asked_wave (emitted s (transmit_sony_12bit_code c s)) in
  length w = 27%nat
  /\ on_time w = 9600 + 600 * ones 12 c
  /\ off_time w = 7800 + 45000
  /\ 9600 <= on_time w <= 16800
  /\ 62400 <= on_time w + off_time w <= 69600.
Proof.
  intros He Hk w. unfold w. rewrite transmit_emitted by exact He.
  rewrite Hk, asked_wave_frame.
  destruct (sony_bit_intervals_time 12 c) as (On & Off & Len).
  pose proof (ones_bounds 12 c) as B.
  change ((true, 2400) :: (false, 600) :: sony_bit_intervals 12 c ++ [(false, 45 * 1000)])
    with ([(true, 2400); (false, 600)] ++ sony_bit_intervals 12 c ++ [(false, 45 * 1000)]).
  rewrite !on_time_app, !off_time_app, !length_app, On, Off, Len.
  change (on_time [(true, 2400); (false, 600)]) with 2400.
  change (off_time [(true, 2400); (false, 600)]) with 600.
  change (on_time [(false, 45 * 1000)]) with 0.
  change (off_time [(false, 45 * 1000)]) with 45000.
  change (Z.of_nat 12) with 12 in *.
  split; [reflexivity|]. repeat split; lia.
Qed.

Lemma frame_length_witness :
  (sleep_enabled ready_state /\ timer0_clocked ready_state = true)
  /\ on_time (asked_wave (emitted ready_state (transmit_sony_12bit_code 149 ready_state)))
     = 9600 + 600 * ones 12 149.
Proof.
  split; [split; reflexivity|].
  apply (frame_length 149 ready_state); reflexivity.
Defined.

(** ** Frames and codes *)

(** X9: two calls of [transmit_sony_12bit_code] put the same frame on
    the line exactly if their codes agree in the low 12 bits: codes that
    differ there are told apart by what is sent. *)
Theorem frames_tell_codes_apart (c1 c2 : Z) (s : hw) :
  sleep_enabled s ->
  timer0_clocked s = true ->
  emitted s (transmit_sony_12bit_code c1 s) = emitted s (transmit_sony_12bit_code c2 s)
  <-> c1 mod 4096 = c2 mod 4096.
Proof.
  intros He Hk. split.
  - rewrite !transmit_emitted by exact He. rewrite Hk. intros E.
    pose proof (decode_asked_frame c1) as D1. rewrite E, decode_asked_frame in D1.
    congruence.
  - intros E. unfold transmit_sony_12bit_code.
    rewrite (send_bits_low 12 c1 c2) by exact E. reflexivity.
Qed.

Lemma frames_tell_codes_apart_witness :
  (sleep_enabled ready_state /\ timer0_clocked ready_state = true)
  /\ emitted ready_state (transmit_sony_12bit_code 148 ready_state)
     <> emitted ready_state (transmit_sony_12bit_code 149 ready_state).
Proof.
  split; [split; reflexivity|].
  intros E. apply (frames_tell_codes_apart 148 149 ready_state) in E;
    [discriminate | reflexivity | reflexivity].
Defined.

(** ** The pressed mask *)

Lemma pressed_zero input :
  pressed input = 0 <-> Z.land input PORTB_BUTTON_PIN_MASK = PORTB_BUTTON_PIN_MASK.
Proof.
  split; intros H.
  - apply Z.bits_inj'. intros i Hi. rewrite Z.land_spec.
    pose proof (pressed_bits input i Hi) as B. rewrite H, Z.bits_0 in B.
    destruct (Z.testbit input i), (Z.testbit PORTB_BUTTON_PIN_MASK i);
      simpl in *; congruence.
  - apply Z.bits_inj'. intros i Hi. rewrite pressed_bits, Z.bits_0 by exact Hi.
    apply (f_equal (fun x => Z.testbit x i)) in H. rewrite Z.land_spec in H.
    destruct (Z.testbit input i), (Z.testbit PORTB_BUTTON_PIN_MASK i);
      simpl in *; congruence.
Qed.

(** X10: the pressed mask has button bits only and lies between 0 and
    30; the lines that are not button lines (the output pin, the reset
    pin and the bits above) have no influence on it; and it is empty,
    which is when a stable reading sends [main] back to power-down
    without any sleep or transmission, exactly if all four button lines
    read high. *)
Theorem pressed_only_buttons (input : Z) (s : hw) :
  Z.land (pressed input) PORTB_BUTTON_PIN_MASK = pressed input
  /\ 0 <= pressed input <= 30
  /\ pressed (Z.land input PORTB_BUTTON_PIN_MASK) = pressed input
  /\ (pressed input = 0
      <-> Z.land input PORTB_BUTTON_PIN_MASK = PORTB_BUTTON_PIN_MASK)
  /\ (main_step (Processing input input) s = (Asleep, s)
      <-> Z.land input PORTB_BUTTON_PIN_MASK = PORTB_BUTTON_PIN_MASK).
Proof.
  split.
  { apply Z.bits_inj'. intros i Hi. rewrite Z.land_spec, pressed_bits by exact Hi.
    destruct (Z.testbit input i), (Z.testbit PORTB_BUTTON_PIN_MASK i); reflexivity. }
  split.
  { apply Z.ldiff_le; [lia|].
    apply Z.bits_inj'. intros i Hi.
    rewrite Z.ldiff_spec, pressed_bits, Z.bits_0 by exact Hi.
    change 30 with PORTB_BUTTON_PIN_MASK.
    destruct (Z.testbit input i), (Z.testbit PORTB_BUTTON_PIN_MASK i); reflexivity. }
  split.
  { apply Z.bits_inj'. intros i Hi. rewrite !pressed_bits, Z.land_spec by exact Hi.
    destruct (Z.testbit input i), (Z.testbit PORTB_BUTTON_PIN_MASK i); reflexivity. }
  split; [apply pressed_zero|].
  rewrite <- pressed_zero, main_step_stable.
  destruct (Z.eqb_spec (pressed input) 0) as [E|E].
  - split; auto.
  - split; [discriminate | contradiction].
Qed.

(** ** Requests the timer cannot hold *)

(** X11: at 1 MHz the compare register receives the low 8 bits of the
    tick count, so [idle_sleep_us us] programs ((us / 16) mod 256) ticks
    of 16 us: never more than 4080 us and never more than asked, nothing
    at all below 16 us, and from 4096 us on at least 4096 us less than
    asked.  Likewise [idle_sleep_ms ms] programs
    ((1000 * ms / 4096) mod 256) ticks of 4096 us, never more than
    1044480 us. *)
Theorem idle_sleep_wraps (us ms : Z) (s : hw) :
  0 <= us <= 4294 ->
  0 <= ms <= 4294 ->
  sleep_enabled s ->
  (emitted s (idle_sleep_us us s)
   = [Slept (Micros us) ((us / 16) mod 256) 5 (carrier s)]
   /\ 0 <= timer_us ((us / 16) mod 256) 5 <= 4080
   /\ timer_us ((us / 16) mod 256) 5 <= us
   /\ (us < 16 -> timer_us ((us / 16) mod 256) 5 = 0)
   /\ (4096 <= us -> timer_us ((us / 16) mod 256) 5 <= us - 4096))
  /\
  (emitted s (idle_sleep_ms ms s)
   = [Slept (Millis ms) ((1000 * ms / 4096) mod 256) 13 (carrier s)]
   /\ 0 <= timer_us ((1000 * ms / 4096) mod 256) 13 <= 1044480
   /\ timer_us ((1000 * ms / 4096) mod 256) 13 <= 1000 * ms
   /\ (ms < 5 -> timer_us ((1000 * ms / 4096) mod 256) 13 = 0)).
Proof.
  intros Hus Hms He.
  pose proof (timer_us_16 ((us / 16) mod 256)) as T16.
  change (u8 presc_us) with 5 in T16.
  pose proof (timer_us_4096 ((1000 * ms / 4096) mod 256)) as T4096.
  change (u8 presc_ms) with 13 in T4096.
  assert (Bu : 0 <= (us / 16) mod 256 < 256) by (apply Z.mod_pos_bound; lia).
  assert (Bm : 0 <= (1000 * ms / 4096) mod 256 < 256) by (apply Z.mod_pos_bound; lia).
  assert (Du : 16 * (us / 16) <= us < 16 * (us / 16) + 16).
  { pose proof (Z.div_mod us 16 ltac:(lia)).
    pose proof (Z.mod_pos_bound us 16 ltac:(lia)). lia. }
  assert (Dm : 4096 * (1000 * ms / 4096) <= 1000 * ms < 4096 * (1000 * ms / 4096) + 4096).
  { pose proof (Z.div_mod (1000 * ms) 4096 ltac:(lia)).
    pose proof (Z.mod_pos_bound (1000 * ms) 4096 ltac:(lia)). lia. }
  assert (Mu : (us / 16) mod 256 <= us / 16).
  { apply Z.mod_le; [apply Z.div_pos; lia | lia]. }
  assert (Mm : (1000 * ms / 4096) mod 256 <= 1000 * ms / 4096).
  { apply Z.mod_le; [apply Z.div_pos; lia | lia]. }
  split.
  - split.
    { apply emitted_app. rewrite idle_sleep_us_trace by exact He.
      unfold slept_us. rewrite us_ticks_small by exact Hus. reflexivity. }
    rewrite T16. split; [lia|]. split; [lia|]. split.
    + intros Hlt. rewrite Z.div_small by lia. reflexivity.
    + intros Hge.
      assert (Q : 256 <= us / 16 < 512).
      { split; [apply Z.div_le_lower_bound; lia | apply Z.div_lt_upper_bound; lia]. }
      replace ((us / 16) mod 256) with (us / 16 - 256); [lia|].
      apply Z.mod_unique with (q := 1); lia.
  - split.
    { apply emitted_app. rewrite idle_sleep_ms_trace by exact He.
      unfold slept_ms. rewrite ms_ticks_small by exact Hms. reflexivity. }
    rewrite T4096. split; [lia|]. split; [lia|].
    intros Hlt. rewrite Z.div_small by lia. reflexivity.
Qed.

Lemma idle_sleep_wraps_witness :
  (0 <= 4100 <= 4294 /\ 0 <= 1100 <= 4294 /\ sleep_enabled ready_state)
  /\ emitted ready_state (idle_sleep_us 4100 ready_state) = [Slept (Micros 4100) 0 5 false]
  /\ emitted ready_state (idle_sleep_ms 1100 ready_state) = [Slept (Millis 1100) 12 13 false].
Proof.
  destruct (idle_sleep_wraps 4100 1100 ready_state) as ((U & _) & (M & _));
    [lia | lia | reflexivity |].
  split; [repeat split; lia|]. split; [exact U | exact M].
Defined.

(** ** Runs of the main loop *)

Lemma main_run_S n c s :
  main_run (S n) c s = main_run n (fst (main_step c s)) (snd (main_step c s)).
Proof. cbn [main_run]. destruct (main_step c s); reflexivity. Qed.

Lemma command_defs_nonzero cmd : In cmd command_defs -> pinmask cmd <> 0.
Proof.
  intros Hin. repeat (destruct Hin as [<-|Hin]; [discriminate|]). destruct Hin.
Qed.

(** The wake-up pass, from a device at rest. *)
Lemma wake_pass s :
  at_rest s ->
  let v := u8 (pins s (reads s)) in
  fst (main_step Asleep s) = Processing v v
  /\ at_rest (snd (main_step Asleep s))
  /\ pins (snd (main_step Asleep s)) = pins s
  /\ reads (snd (main_step Asleep s)) = S (reads s)
  /\ trace (snd (main_step Asleep s))
     = trace s ++ [PoweredDown; slept_ms DEBOUNCE_DURATION false; Sampled v].
Proof.
  intros H v. rewrite main_step_Asleep, fst_pair, snd_pair.
  destruct (wake_at_rest s _ H eq_refl) as (H2 & P2 & R2 & T2).
  rewrite fst_read, pins_read, reads_read, trace_read, fst_read, P2, R2, T2.
  split; [reflexivity|]. split; [apply at_rest_read; exact H2|].
  split; [reflexivity|]. split; [reflexivity|].
  rewrite <- app_assoc. reflexivity.
Qed.

(** A pass with a stable reading that a table entry answers. *)
Lemma frame_pass w cmd s :
  at_rest s ->
  In cmd command_defs ->
  pressed w = pinmask cmd ->
  let s' := snd (main_step (Processing w w) s) in
  fst (main_step (Processing w w) s) = Processing (u8 (pins s (reads s))) w
  /\ at_rest s'
  /\ pins s' = pins s
  /\ reads s' = S (reads s)
  /\ trace s' = trace s ++ frame true (code cmd) ++ [Sampled (u8 (pins s (reads s)))].
Proof.
  intros H Hin Hp s'. unfold s'. rewrite main_step_stable, Hp.
  destruct (Z.eqb_spec (pinmask cmd) 0) as [E|_];
    [exfalso; apply (command_defs_nonzero cmd Hin E)|].
  rewrite fst_pair, snd_pair, resolve_entry by exact Hin.
  destruct (transmit_spec (code cmd) s (at_rest_enabled s H))
    as (T & _ & _ & _ & _ & _ & P & R).
  rewrite fst_read, pins_read, reads_read, trace_read, fst_read, P, R, T.
  rewrite (at_rest_clocked s H).
  split; [reflexivity|]. split; [apply at_rest_read, at_rest_transmit; exact H|].
  split; [reflexivity|]. split; [reflexivity|].
  rewrite <- app_assoc. reflexivity.
Qed.

Lemma held_run n : forall w cmd s,
  at_rest s ->
  In cmd command_defs ->
  pressed w = pinmask cmd ->
  (forall k, u8 (pins s k) = w) ->
  fst (main_run n (Processing w w) s) = Processing w w
  /\ trace (snd (main_run n (Processing w w) s))
     = trace s ++ concat (repeat (frame true (code cmd) ++ [Sampled w]) n).
Proof.
  induction n as [|n IH]; intros w cmd s H Hin Hp Hw.
  - simpl. rewrite app_nil_r. auto.
  - rewrite main_run_S.
    pose proof (frame_pass w cmd s H Hin Hp) as F. cbv zeta in F.
    destruct F as (Fc & Fr & Fp & _ & Ft).
    rewrite Fc, Hw.
    destruct (IH w cmd (snd (main_step (Processing w w) s)) Fr Hin Hp) as (Ic & It).
    { intros k. rewrite Fp. apply Hw. }
    split; [exact Ic|].
    rewrite It, Ft, Hw. cbn [repeat concat]. rewrite <- !app_assoc. reflexivity.
Qed.

(** X12: while the input lines keep reading as the button combination
    of a table entry, [main] wakes up once and then sends that entry's
    frame again on every pass, a sample between two frames and nothing
    else: a held button repeats its code, the frames 45 ms apart. *)
Theorem held_button_repeats (p : nat -> Z) (w : Z) (cmd : command_def) (n : nat) :
  In cmd command_defs ->
  pressed w = pinmask cmd ->
  (forall k, u8 (p k) = w) ->
  fst (main (S n) p) = Processing w w
  /\ trace (snd (main (S n) p))
     = [PoweredDown; slept_ms DEBOUNCE_DURATION false; Sampled w]
       ++ concat (repeat (frame true (code cmd) ++ [Sampled w]) n).
Proof.
  intros Hin Hp Hw. unfold main. rewrite main_run_S.
  pose proof (wake_pass (main_init (reset_state p)) (at_rest_reset p)) as W.
  cbv zeta in W. destruct W as (Wc & Wr & Wp & _ & Wt).
  change (pins (main_init (reset_state p))) with p in Wc, Wp, Wt.
  rewrite Hw in Wc, Wt. rewrite Wc.
  destruct (held_run n w cmd _ Wr Hin Hp) as (Ic & It).
  { intros k. rewrite Wp. apply Hw. }
  split; [exact Ic|]. rewrite It, Wt. reflexivity.
Qed.

Lemma held_button_repeats_witness :
  (In (mk_command 2 149) command_defs /\ pressed 28 = 2
   /\ (forall k : nat, u8 ((fun _ => 28) k) = 28))
  /\ trace (snd (main 3 (fun _ => 28)))
     = [PoweredDown; slept_ms DEBOUNCE_DURATION false; Sampled 28]
       ++ concat (repeat (frame true 149 ++ [Sampled 28]) 2).
Proof.
  assert (Hin : In (mk_command 2 149) command_defs) by (left; reflexivity).
  split; [split; [exact Hin | split; [reflexivity | intros k; reflexivity]]|].
  apply (held_button_repeats (fun _ => 28) 28 (mk_command 2 149) 2 Hin);
    [reflexivity | intros k; reflexivity].
Defined.

Lemma released_run n : forall s,
  at_rest s ->
  (forall k, pressed (u8 (pins s k)) = 0) ->
  fst (main_run (2 * n) Asleep s) = Asleep
  /\ trace (snd (main_run (2 * n) Asleep s))
     = trace s
       ++ flat_map (fun k => [PoweredDown; slept_ms DEBOUNCE_DURATION false;
                              Sampled (u8 (pins s k))])
                   (seq (reads s) n).
Proof.
  induction n as [|n IH]; intros s H Hz.
  - simpl. rewrite app_nil_r. auto.
  - replace (2 * S n)%nat with (S (S (2 * n))) by lia.
    rewrite main_run_S.
    pose proof (wake_pass s H) as W. cbv zeta in W.
    destruct W as (Wc & Wr & Wp & Wrd & Wt).
    rewrite Wc, main_run_S, main_step_stable, Hz, Z.eqb_refl, fst_pair, snd_pair.
    destruct (IH (snd (main_step Asleep s)) Wr) as (Ic & It).
    { intros k. rewrite Wp. apply Hz. }
    split; [exact Ic|].
    rewrite It, Wt, Wp, Wrd. cbn [seq flat_map]. rewrite <- !app_assoc. reflexivity.
Qed.

(** X13: as long as no button line reads low, [main] sends nothing:
    every wake-up is one power-down, one debounce sleep and one sample,
    after which the device is back at the top of its outer loop; the
    carrier is never on. *)
Theorem released_stays_silent (p : nat -> Z) (n : nat) :
  (forall k, pressed (u8 (p k)) = 0) ->
  fst (main (2 * n) p) = Asleep
  /\ trace (snd (main (2 * n) p))
     = flat_map (fun k => [PoweredDown; slept_ms DEBOUNCE_DURATION false;
                           Sampled (u8 (p k))])
                (seq 0 n)
  /\ on_time (asked_wave (trace (snd (main (2 * n) p)))) = 0.
Proof.
  intros Hz. unfold main.
  destruct (released_run n (main_init (reset_state p)) (at_rest_reset p)) as (C & T).
  { exact Hz. }
  change (trace (main_init (reset_state p))) with (@nil event) in T.
  change (reads (main_init (reset_state p))) with O in T.
  change (pins (main_init (reset_state p))) with p in T.
  cbn [app] in T.
  split; [exact C|]. split; [exact T|].
  rewrite T. clear. generalize 0%nat.
  induction n as [|n IH]; intros k; [reflexivity|].
  cbn [seq flat_map]. unfold asked_wave in *. rewrite wave_app, on_time_app, IH.
  reflexivity.
Qed.

Lemma released_stays_silent_witness :
  (forall k : nat, pressed (u8 ((fun _ => 30) k)) = 0)
  /\ fst (main (2 * 2) (fun _ => 30)) = Asleep.
Proof.
  assert (H : forall k : nat, pressed (u8 ((fun _ : nat => 30) k)) = 0)
    by (intros k; reflexivity).
  split; [exact H|].
  apply (released_stays_silent (fun _ => 30) 2 H).
Defined.

(** A pass with a stable reading that no table entry answers. *)
Lemma unmapped_pass w s :
  at_rest s ->
  pressed w <> 0 ->
  (forall cmd, In cmd command_defs -> pinmask cmd <> pressed w) ->
  let s' := snd (main_step (Processing w w) s) in
  fst (main_step (Processing w w) s) = Processing (u8 (pins s (reads s))) w
  /\ at_rest s'
  /\ pins s' = pins s
  /\ trace s' = trace s ++ [slept_ms DEBOUNCE_DURATION false;
                            Sampled (u8 (pins s (reads s)))].
Proof.
  intros H Hnz Hno s'. unfold s'. rewrite main_step_stable.
  destruct (Z.eqb_spec (pressed w) 0) as [E|_]; [contradiction|].
  rewrite fst_pair, snd_pair. unfold transmit_code_for_buttons.
  rewrite scan_commands_none by exact Hno.
  destruct (wait_at_rest s _ H eq_refl) as (H1 & P1 & R1 & T1).
  rewrite fst_read, pins_read, trace_read, fst_read, P1, R1, T1.
  split; [reflexivity|]. split; [apply at_rest_read; exact H1|].
  split; [reflexivity|]. rewrite <- app_assoc. reflexivity.
Qed.

Lemma unmapped_run n : forall w s,
  at_rest s ->
  pressed w <> 0 ->
  (forall cmd, In cmd command_defs -> pinmask cmd <> pressed w) ->
  (forall k, u8 (pins s k) = w) ->
  fst (main_run n (Processing w w) s) = Processing w w
  /\ trace (snd (main_run n (Processing w w) s))
     = trace s ++ concat (repeat [slept_ms DEBOUNCE_DURATION false; Sampled w] n).
Proof.
  induction n as [|n IH]; intros w s H Hnz Hno Hw.
  - simpl. rewrite app_nil_r. auto.
  - rewrite main_run_S.
    pose proof (unmapped_pass w s H Hnz Hno) as F. cbv zeta in F.
    destruct F as (Fc & Fr & Fp & Ft).
    rewrite Fc, Hw.
    destruct (IH w (snd (main_step (Processing w w) s)) Fr Hnz Hno) as (Ic & It).
    { intros k. rewrite Fp. apply Hw. }
    split; [exact Ic|].
    rewrite It, Ft, Hw. cbn [repeat concat app]. rewrite <- !app_assoc. reflexivity.
Qed.

(** X14: while the input lines keep reading as a button combination
    that no table entry answers, [main] wakes up once and then only
    idle-sleeps one debounce interval and samples, pass after pass: it
    never sends a frame and never goes back to power-down. *)
Theorem unmapped_chord_polls (p : nat -> Z) (w : Z) (n : nat) :
  pressed w <> 0 ->
  (forall cmd, In cmd command_defs -> pinmask cmd <> pressed w) ->
  (forall k, u8 (p k) = w) ->
  fst (main (S n) p) = Processing w w
  /\ trace (snd (main (S n) p))
     = [PoweredDown; slept_ms DEBOUNCE_DURATION false; Sampled w]
       ++ concat (repeat [slept_ms DEBOUNCE_DURATION false; Sampled w] n).
Proof.
  intros Hnz Hno Hw. unfold main. rewrite main_run_S.
  pose proof (wake_pass (main_init (reset_state p)) (at_rest_reset p)) as W.
  cbv zeta in W. destruct W as (Wc & Wr & Wp & _ & Wt).
  change (pins (main_init (reset_state p))) with p in Wc, Wp, Wt.
  rewrite Hw in Wc, Wt. rewrite Wc.
  destruct (unmapped_run n w _ Wr Hnz Hno) as (Ic & It).
  { intros k. rewrite Wp. apply Hw. }
  split; [exact Ic|]. rewrite It, Wt. reflexivity.
Qed.

Lemma unmapped_chord_polls_witness :
  (pressed 24 <> 0
   /\ (forall cmd, In cmd command_defs -> pinmask cmd <> pressed 24)
   /\ (forall k : nat, u8 ((fun _ => 24) k) = 24))
  /\ trace (snd (main 3 (fun _ => 24)))
     = [PoweredDown; slept_ms DEBOUNCE_DURATION false; Sampled 24]
       ++ concat (repeat [slept_ms DEBOUNCE_DURATION false; Sampled 24] 2).
Proof.
  assert (Hnz : pressed 24 <> 0) by discriminate.
  assert (Hno : forall cmd, In cmd command_defs -> pinmask cmd <> pressed 24).
  { intros cmd Hin.
    repeat (destruct Hin as [<-|Hin]; [discriminate|]). destruct Hin. }
  assert (Hw : forall k : nat, u8 ((fun _ : nat => 24) k) = 24) by (intros k; reflexivity).
  split; [split; [exact Hnz | split; [exact Hno | exact Hw]]|].
  apply (unmapped_chord_polls (fun _ => 24) 24 2 Hnz Hno Hw).
Defined.
